(** * Transaction ledger actions of the finance tracker

    A shallow embedding of the server actions (createTransaction,
    getTransaction, updateTransaction, getUserTransactions, scanReceipt,
    calculateNextRecurringDate) and of the demo seeder (seedTransactions),
    followed by the properties of the ledger maintenance logic.

    Modelling conventions.
    - Money (Prisma Decimal, JS number) is an exact integer amount of minor
      currency units (cents), a [Z]; binary floating-point rounding of the
      JS additions is outside the model.
    - A JS [Date] is its ECMAScript time value: [Some t] with [t] the
      milliseconds since the epoch, [None] for an Invalid Date.  Local time
      is taken with a constant zone offset of zero (no daylight saving).
    - The tables of the database are finite maps from the primary key to the
      row; the [$transaction] primitive runs its statements on a working
      copy and installs it only when every statement succeeded.
    - What the environment decides (session, rate limiter, generated ids,
      statement failures, clock, random numbers) is read from an [Env]. *)

From Stdlib Require Import ZArith Lia String Ascii List.
From stdpp Require Import base option list gmap strings fin_maps.
From stdpp Require Import sorting.

Local Open Scope string_scope.
Local Open Scope Z_scope.

(** ** ECMAScript date arithmetic (ECMA-262, "Time Values and Time Range") *)

Module JSDate.

Definition msPerDay : Z := 86400000.
Definition maxTime : Z := 8640000000000000.

(** A Date object: [None] is the Invalid Date (time value NaN). *)
Definition t : Type := option Z.

Definition Day (tv : Z) : Z := tv / msPerDay.
Definition TimeWithinDay (tv : Z) : Z := tv mod msPerDay.

Definition DayFromYear (y : Z) : Z :=
  365 * (y - 1970) + (y - 1969) / 4 - (y - 1901) / 100 + (y - 1601) / 400.

Definition InLeapYear (y : Z) : Z :=
  if negb (y mod 4 =? 0) then 0
  else if negb (y mod 100 =? 0) then 1
  else if negb (y mod 400 =? 0) then 0
  else 1.

Definition DaysInYear (y : Z) : Z := 365 + InLeapYear y.

(** The largest year [y] with [DayFromYear y <= d]: one of the three years
    around the mean-year estimate. *)
Definition YearFromDay (d : Z) : Z :=
  let c := 1970 + (400 * d) / 146097 in
  if DayFromYear (c + 1) <=? d then c + 1
  else if DayFromYear c <=? d then c
  else c - 1.

Definition DayWithinYear (d : Z) : Z := d - DayFromYear (YearFromDay d).

(** Number of days of the year before month [m] (0 = January). *)
Definition monthStart (m leap : Z) : Z :=
  if m =? 0 then 0
  else if m =? 1 then 31
  else if m =? 2 then 59 + leap
  else if m =? 3 then 90 + leap
  else if m =? 4 then 120 + leap
  else if m =? 5 then 151 + leap
  else if m =? 6 then 181 + leap
  else if m =? 7 then 212 + leap
  else if m =? 8 then 243 + leap
  else if m =? 9 then 273 + leap
  else if m =? 10 then 304 + leap
  else 334 + leap.

Definition MonthFromDay (d : Z) : Z :=
  let w := DayWithinYear d in
  let leap := InLeapYear (YearFromDay d) in
  if w <? 31 then 0
  else if w <? 59 + leap then 1
  else if w <? 90 + leap then 2
  else if w <? 120 + leap then 3
  else if w <? 151 + leap then 4
  else if w <? 181 + leap then 5
  else if w <? 212 + leap then 6
  else if w <? 243 + leap then 7
  else if w <? 273 + leap then 8
  else if w <? 304 + leap then 9
  else if w <? 334 + leap then 10
  else 11.

Definition DateFromDay (d : Z) : Z :=
  DayWithinYear d - monthStart (MonthFromDay d) (InLeapYear (YearFromDay d)) + 1.

Definition YearFromTime (tv : Z) : Z := YearFromDay (Day tv).
Definition MonthFromTime (tv : Z) : Z := MonthFromDay (Day tv).
Definition DateFromTime (tv : Z) : Z := DateFromDay (Day tv).

(** MakeDay(year, month, date): the month is normalised into the year,
    the date is added to the first day of that month without any check. *)
Definition MakeDay (year month date : Z) : Z :=
  let ym := year + month / 12 in
  let mn := month mod 12 in
  DayFromYear ym + monthStart mn (InLeapYear ym) + date - 1.

Definition MakeDate (day time : Z) : Z := day * msPerDay + time.

Definition TimeClip (tv : Z) : t :=
  if Z.abs tv <=? maxTime then Some tv else None.

(** [new Date(value)] of a Date copies its time value. *)
Definition copy (d : t) : t := d.

Definition getFullYear (d : t) : option Z := YearFromTime <$> d.
Definition getMonth (d : t) : option Z := MonthFromTime <$> d.
Definition getDate (d : t) : option Z := DateFromTime <$> d.

(** The setters take the argument as a JS number, [None] being NaN. *)
Definition setDate (d : t) (date : option Z) : t :=
  match d, date with
  | Some tv, Some dt =>
      TimeClip (MakeDate (MakeDay (YearFromTime tv) (MonthFromTime tv) dt)
                         (TimeWithinDay tv))
  | _, _ => None
  end.

Definition setMonth (d : t) (month : option Z) : t :=
  match d, month with
  | Some tv, Some m =>
      TimeClip (MakeDate (MakeDay (YearFromTime tv) m (DateFromTime tv))
                         (TimeWithinDay tv))
  | _, _ => None
  end.

Definition setFullYear (d : t) (year : option Z) : t :=
  match d, year with
  | Some tv, Some y =>
      TimeClip (MakeDate (MakeDay y (MonthFromTime tv) (DateFromTime tv))
                         (TimeWithinDay tv))
  | _, _ => None
  end.

(** [x + n] on a JS number that may be NaN. *)
Definition plus (x : option Z) (n : Z) : option Z := (fun v => v + n) <$> x.

(** Length of month [m] (0 = January) in a year with [leap] leap days. *)
Definition daysInMonth (m leap : Z) : Z :=
  if m =? 1 then 28 + leap
  else if (m =? 3) || (m =? 5) || (m =? 8) || (m =? 10) then 30
  else 31.

(** The Date of a civil date and a time of day (month 0 = January). *)
Definition ofCivil (year month date ms : Z) : t :=
  TimeClip (MakeDate (MakeDay year month date) ms).

End JSDate.

(** ** calculateNextRecurringDate *)

Definition calculateNextRecurringDate (startDate : JSDate.t) (interval : string)
  : JSDate.t :=
  let date := JSDate.copy startDate in
  if String.eqb interval "DAILY" then
    JSDate.setDate date (JSDate.plus (JSDate.getDate date) 1)
  else if String.eqb interval "WEEKLY" then
    JSDate.setDate date (JSDate.plus (JSDate.getDate date) 7)
  else if String.eqb interval "MONTHLY" then
    JSDate.setMonth date (JSDate.plus (JSDate.getMonth date) 1)
  else if String.eqb interval "YEARLY" then
    JSDate.setFullYear date (JSDate.plus (JSDate.getFullYear date) 1)
  else date.

(** ** Exceptions and the state of a request *)

(** How a piece of JS code ends: with a value, or with [throw new Error(msg)]. *)
Inductive Outcome (A : Type) : Type :=
| Return (a : A)
| Throw (msg : string).
Arguments Return {A} a.
Arguments Throw {A} msg.

(** The result object of an action: [{ success: true, data }] or
    [{ success: false, error }]. *)
Inductive ActionResult (A : Type) : Type :=
| Success (data : A)
| Failure (error : string).
Arguments Success {A} data.
Arguments Failure {A} error.

(** JS truthiness of a value that is a string, [null] or [undefined]. *)
Definition truthy (v : option string) : bool :=
  match v with
  | Some s => negb (String.eqb s "")
  | None => false
  end.

(** *** Rows *)

Record User := {
  user_id : string;
  clerkUserId : string
}.

Record Account := {
  account_id : string;
  account_userId : string;
  balance : Z;
  account_updatedAt : option JSDate.t
}.

(** A transaction row.  [None] in [tx_status], [tx_createdAt] and
    [tx_updatedAt] stands for a column the statement left to its default. *)
Record Transaction := {
  tx_id : string;
  tx_type : string;
  tx_amount : Z;
  tx_description : option string;
  tx_date : JSDate.t;
  tx_category : string;
  tx_status : option string;
  tx_userId : string;
  tx_accountId : string;
  tx_isRecurring : bool;
  tx_recurringInterval : option string;
  tx_nextRecurringDate : option JSDate.t;
  tx_createdAt : option JSDate.t;
  tx_updatedAt : option JSDate.t
}.

(** The [data] argument of createTransaction and updateTransaction; a
    [recurringInterval] of [None] is [null]. *)
Record TransactionData := {
  d_type : string;
  d_amount : Z;
  d_description : option string;
  d_date : JSDate.t;
  d_category : string;
  d_accountId : string;
  d_isRecurring : bool;
  d_recurringInterval : option string
}.

(** *** The database and the world of a request *)

Record DB := {
  users : list User;
  accounts : gmap string Account;
  transactions : gmap string Transaction
}.

Record World := {
  db : DB;
  revalidated : list string
}.

Inductive Decision : Type :=
| Allowed
| DeniedRateLimit (remaining reset : Z)
| DeniedOther.

Definition isDenied (d : Decision) : bool :=
  match d with Allowed => false | _ => true end.

Definition isRateLimit (d : Decision) : bool :=
  match d with DeniedRateLimit _ _ => true | _ => false end.

(** What the environment of a request decides. *)
Record Env := {
  auth_userId : option string;          (* auth(): the session's user id *)
  aj_protect : Decision;                (* the rate limiter's decision *)
  uuid : nat -> string;                 (* the k-th id the database generates *)
  stmt_fault : nat -> option string;    (* statement k of a batch fails *)
  now : Z;                              (* new Date(): the clock *)
  Math_random : nat -> Z                (* the k-th draw, scaled by 2^53 *)
}.

Definition Action (A : Type) : Type := World -> Outcome A * World.

Definition ret {A} (a : A) : Action A := fun w => (Return a, w).
Definition throw {A} (msg : string) : Action A := fun w => (Throw msg, w).
Definition bind {A B} (m : Action A) (k : A -> Action B) : Action B :=
  fun w => match m w with
           | (Return a, w') => k a w'
           | (Throw msg, w') => (Throw msg, w')
           end.

Notation "x <- m ;; k" := (bind m (fun x => k))
  (at level 100, m at next level, right associativity).
Notation "m ;;; k" := (bind m (fun _ => k))
  (at level 100, right associativity).

(** [try { body } catch (error) { handler(error.message) }] *)
Definition try_catch {A} (body : Action A) (handler : string -> Action A)
  : Action A :=
  fun w => match body w with
           | (Return a, w') => (Return a, w')
           | (Throw msg, w') => handler msg w'
           end.

Definition read {A} (f : DB -> A) : Action A := fun w => (Return (f (db w)), w).

Definition revalidatePath (path : string) : Action unit :=
  fun w => (Return tt, {| db := db w; revalidated := path :: revalidated w |}).

(** *** Queries of the persistence client *)

Definition user_findFirst (clerk : string) (d : DB) : option User :=
  List.find (fun u => String.eqb (clerkUserId u) clerk) (users d).

(** [db.account.findFirst({ where: { id, userId } })] *)
Definition account_findFirst (id userId : string) (d : DB) : option Account :=
  match accounts d !! id with
  | Some a => if String.eqb (account_userId a) userId then Some a else None
  | None => None
  end.

(** [db.transaction.findFirst({ where: { id, userId } })] *)
Definition transaction_findFirst (id userId : string) (d : DB)
  : option Transaction :=
  match transactions d !! id with
  | Some t => if String.eqb (tx_userId t) userId then Some t else None
  | None => None
  end.

(** *** Statements and the atomic batch *)

Definition Stmt (A : Type) : Type := DB -> Outcome (A * DB).

Definition with_accounts (d : DB) (m : gmap string Account) : DB :=
  {| users := users d; accounts := m; transactions := transactions d |}.

Definition with_transactions (d : DB) (m : gmap string Transaction) : DB :=
  {| users := users d; accounts := accounts d; transactions := m |}.

(** [db.transaction.create({ data })]: the primary key must be free. *)
Definition transaction_create (row : Transaction) : Stmt Transaction :=
  fun d => match transactions d !! tx_id row with
           | Some _ => Throw "Unique constraint failed on the fields: (`id`)"
           | None =>
               Return (row, with_transactions d (<[tx_id row := row]> (transactions d)))
           end.

(** [db.transaction.update({ where: { id, userId }, data })] *)
Definition transaction_update (id userId : string)
    (f : Transaction -> Transaction) : Stmt Transaction :=
  fun d => match transaction_findFirst id userId d with
           | Some t =>
               Return (f t, with_transactions d (<[id := f t]> (transactions d)))
           | None => Throw "Record to update not found."
           end.

(** [db.account.update({ where: { id }, data })] *)
Definition account_update (id : string) (f : Account -> Account) : Stmt Account :=
  fun d => match accounts d !! id with
           | Some a => Return (f a, with_accounts d (<[id := f a]> (accounts d)))
           | None => Throw "Record to update not found."
           end.

Definition set_balance (b : Z) (a : Account) : Account :=
  {| account_id := account_id a; account_userId := account_userId a;
     balance := b; account_updatedAt := account_updatedAt a |}.

Definition increment_balance (n : Z) (a : Account) : Account :=
  set_balance (balance a + n) a.

(** Statement [k] of a batch: the environment may make it fail. *)
Definition attempt {A} (env : Env) (k : nat) (s : Stmt A) : Stmt A :=
  fun d => match stmt_fault env k with
           | Some msg => Throw msg
           | None => s d
           end.

Definition stmt_then {A B} (s1 : Stmt A) (s2 : Stmt B) : Stmt (A * B) :=
  fun d => match s1 d with
           | Throw msg => Throw msg
           | Return (a, d1) =>
               match s2 d1 with
               | Throw msg => Throw msg
               | Return (b, d2) => Return ((a, b), d2)
               end
           end.

(** Commit or roll back: the working copy replaces the database only when
    the whole batch returned. *)
Definition atomically {A} (batch : Stmt A) : Action A :=
  fun w => match batch (db w) with
           | Return (a, d') => (Return a, {| db := d'; revalidated := revalidated w |})
           | Throw msg => (Throw msg, w)
           end.

(** [db.$transaction([s1, s2])] *)
Definition dollar_transaction2 {A B} (env : Env) (s1 : Stmt A) (s2 : Stmt B)
  : Action (A * B) :=
  atomically (stmt_then (attempt env 0 s1) (attempt env 1 s2)).

(** [db.$transaction([s1, s2, s3])] *)
Definition dollar_transaction3 {A B C} (env : Env)
    (s1 : Stmt A) (s2 : Stmt B) (s3 : Stmt C) : Action (A * (B * C)) :=
  atomically (stmt_then (attempt env 0 s1)
                (stmt_then (attempt env 1 s2) (attempt env 2 s3))).

(** ** The transaction actions *)

(** [obj.amount.toNumber()]: the amount is already a number here. *)
Definition serializeAmount (obj : Transaction) : Transaction := obj.

(** [const { userId } = await auth(); if (!userId) throw ...] *)
Definition authenticate (env : Env) : Action string :=
  match auth_userId env with
  | Some userId => if truthy (Some userId) then ret userId else throw "Unauthorized"
  | None => throw "Unauthorized"
  end.

Definition resolve_user (userId : string) : Action User :=
  user <- read (user_findFirst userId) ;;
  match user with
  | Some u => ret u
  | None => throw "User not found"
  end.

(** [data.isRecurring && data.recurringInterval ? calculateNext... : null] *)
Definition nextRecurringDate_of (data : TransactionData) : option JSDate.t :=
  match d_recurringInterval data with
  | Some interval =>
      if d_isRecurring data && truthy (Some interval)
      then Some (calculateNextRecurringDate (d_date data) interval)
      else None
  | None => None
  end.

(** [type === "EXPENSE" ? -amount : amount] *)
Definition balanceChange_of (type : string) (amount : Z) : Z :=
  if String.eqb type "EXPENSE" then - amount else amount.

Definition created_row (id : string) (data : TransactionData) (user : User)
  : Transaction :=
  {| tx_id := id;
     tx_type := d_type data;
     tx_amount := d_amount data;
     tx_description := d_description data;
     tx_date := d_date data;
     tx_category := d_category data;
     tx_status := None;
     tx_userId := user_id user;
     tx_accountId := d_accountId data;
     tx_isRecurring := d_isRecurring data;
     tx_recurringInterval := d_recurringInterval data;
     tx_nextRecurringDate := nextRecurringDate_of data;
     tx_createdAt := None;
     tx_updatedAt := None |}.

Definition updated_row (data : TransactionData) (old : Transaction)
  : Transaction :=
  {| tx_id := tx_id old;
     tx_type := d_type data;
     tx_amount := d_amount data;
     tx_description := d_description data;
     tx_date := d_date data;
     tx_category := d_category data;
     tx_status := tx_status old;
     tx_userId := tx_userId old;
     tx_accountId := d_accountId data;
     tx_isRecurring := d_isRecurring data;
     tx_recurringInterval := d_recurringInterval data;
     tx_nextRecurringDate := nextRecurringDate_of data;
     tx_createdAt := tx_createdAt old;
     tx_updatedAt := tx_updatedAt old |}.

Definition createTransaction_body (env : Env) (data : TransactionData)
  : Action (ActionResult Transaction) :=
  userId <- authenticate env ;;
  (if isDenied (aj_protect env) then
     if isRateLimit (aj_protect env)
     then throw "Too many requests. Please try again later."
     else throw "Request blocked"
   else ret tt) ;;;
  user <- resolve_user userId ;;
  account <- read (account_findFirst (d_accountId data) (user_id user)) ;;
  match account with
  | None => throw "Account not found"
  | Some account =>
      let balanceChange := balanceChange_of (d_type data) (d_amount data) in
      let newBalance := balance account + balanceChange in
      res <- dollar_transaction2 env
               (transaction_create (created_row (uuid env 0) data user))
               (account_update (d_accountId data) (set_balance newBalance)) ;;
      let transaction := fst res in
      revalidatePath "/dashboard" ;;;
      revalidatePath ("/account/" ++ d_accountId data) ;;;
      ret (Success (serializeAmount transaction))
  end.

Definition createTransaction (env : Env) (data : TransactionData)
  : Action (ActionResult Transaction) :=
  try_catch (createTransaction_body env data)
            (fun message => ret (Failure message)).

Definition getTransaction_body (env : Env) (id : string) : Action Transaction :=
  userId <- authenticate env ;;
  user <- resolve_user userId ;;
  transaction <- read (transaction_findFirst id (user_id user)) ;;
  match transaction with
  | None => throw "Transaction not found"
  | Some transaction => ret (serializeAmount transaction)
  end.

Definition getTransaction (env : Env) (id : string) : Action Transaction :=
  try_catch (getTransaction_body env id) (fun message => throw message).

Definition updateTransaction_body (env : Env) (id : string)
    (data : TransactionData) : Action (ActionResult Transaction) :=
  userId <- authenticate env ;;
  user <- resolve_user userId ;;
  originalTransaction <- read (transaction_findFirst id (user_id user)) ;;
  match originalTransaction with
  | None => throw "Transaction not found"
  | Some originalTransaction =>
      let oldBalanceChange :=
        balanceChange_of (tx_type originalTransaction)
                         (tx_amount originalTransaction) in
      let newBalanceChange := balanceChange_of (d_type data) (d_amount data) in
      let netBalanceChange := newBalanceChange - oldBalanceChange in
      res <- dollar_transaction2 env
               (transaction_update id (user_id user) (updated_row data))
               (account_update (d_accountId data)
                               (increment_balance netBalanceChange)) ;;
      let transaction := fst res in
      revalidatePath "/dashboard" ;;;
      revalidatePath ("/account/" ++ d_accountId data) ;;;
      ret (Success (serializeAmount transaction))
  end.

Definition updateTransaction (env : Env) (id : string) (data : TransactionData)
  : Action (ActionResult Transaction) :=
  try_catch (updateTransaction_body env id data)
            (fun message => ret (Failure message)).

(** *** What a committed mutation leaves behind *)

(** The world after a committed createTransaction. *)
Definition created_world (env : Env) (data : TransactionData) (user : User)
    (account : Account) (w : World) : World :=
  {| db :=
       {| users := users (db w);
          accounts :=
            <[d_accountId data :=
                set_balance (balance account
                             + balanceChange_of (d_type data) (d_amount data))
                            account]> (accounts (db w));
          transactions :=
            <[uuid env 0 := created_row (uuid env 0) data user]>
              (transactions (db w)) |};
     revalidated :=
       ("/account/" ++ d_accountId data)%string :: "/dashboard" :: revalidated w |}.

(** The guards of createTransaction and the two statements all went through. *)
Definition create_accepted (env : Env) (data : TransactionData) (w : World)
    (user : User) (account : Account) : Prop :=
  exists userId,
    auth_userId env = Some userId /\ userId <> "" /\
    aj_protect env = Allowed /\
    user_findFirst userId (db w) = Some user /\
    account_findFirst (d_accountId data) (user_id user) (db w) = Some account /\
    transactions (db w) !! uuid env 0 = None /\
    stmt_fault env 0%nat = None /\ stmt_fault env 1%nat = None.

(** The world after a committed updateTransaction. *)
Definition updated_world (id : string) (data : TransactionData)
    (original : Transaction) (account : Account) (w : World) : World :=
  {| db :=
       {| users := users (db w);
          accounts :=
            <[d_accountId data :=
                increment_balance
                  (balanceChange_of (d_type data) (d_amount data)
                   - balanceChange_of (tx_type original) (tx_amount original))
                  account]> (accounts (db w));
          transactions :=
            <[id := updated_row data original]> (transactions (db w)) |};
     revalidated :=
       ("/account/" ++ d_accountId data)%string :: "/dashboard" :: revalidated w |}.

(** The guards of updateTransaction and the two statements all went through. *)
Definition update_accepted (env : Env) (id : string) (data : TransactionData)
    (w : World) (user : User) (original : Transaction) (account : Account)
  : Prop :=
  exists userId,
    auth_userId env = Some userId /\ userId <> "" /\
    user_findFirst userId (db w) = Some user /\
    transaction_findFirst id (user_id user) (db w) = Some original /\
    accounts (db w) !! d_accountId data = Some account /\
    stmt_fault env 0%nat = None /\ stmt_fault env 1%nat = None.

(** [db.transaction.findMany]: the query object is spread after the
    owner's [userId], so a [userId] key of the query replaces it; the other
    conditions of the query are a predicate on the row. *)
Record Query := {
  q_userId : option string;
  q_where : Transaction -> bool
}.

Definition date_leb (a b : JSDate.t) : bool :=
  match a, b with
  | Some x, Some y => x <=? y
  | None, _ => true
  | Some _, None => false
  end.

Fixpoint insert_desc (t : Transaction) (l : list Transaction) : list Transaction :=
  match l with
  | [] => [t]
  | h :: r =>
      if date_leb (tx_date h) (tx_date t) then t :: l else h :: insert_desc t r
  end.

Definition orderBy_date_desc (l : list Transaction) : list Transaction :=
  foldr insert_desc [] l.

Definition transaction_findMany (userId : string) (query : Query) (d : DB)
  : list (Transaction * option Account) :=
  let owner := default userId (q_userId query) in
  let rows :=
    List.filter (fun t => String.eqb (tx_userId t) owner && q_where query t)
                (snd <$> map_to_list (transactions d)) in
  (fun t => (t, accounts d !! tx_accountId t)) <$> orderBy_date_desc rows.

Definition getUserTransactions_body (env : Env) (query : Query)
  : Action (ActionResult (list (Transaction * option Account))) :=
  userId <- authenticate env ;;
  user <- resolve_user userId ;;
  transactions <- read (transaction_findMany (user_id user) query) ;;
  ret (Success ((fun ta => (serializeAmount (fst ta), snd ta)) <$> transactions)).

Definition getUserTransactions (env : Env) (query : Query)
  : Action (ActionResult (list (Transaction * option Account))) :=
  try_catch (getUserTransactions_body env query)
            (fun message => ret (Failure message)).

(** ** The receipt extraction adapter *)

Module Receipt.

Definition newline : string := String (ascii_of_nat 10) EmptyString.

Fixpoint string_drop (n : nat) (s : string) : string :=
  match n, s with
  | S k, String _ r => string_drop k r
  | _, _ => s
  end.

(** Length of the match of [```(?:json)?\n?] at the head of [s], [0] when
    [s] does not start with a fence. *)
Definition fence_length (s : string) : nat :=
  if String.prefix "```" s then
    let r1 := string_drop 3 s in
    let n1 := if String.prefix "json" r1 then 4%nat else 0%nat in
    let r2 := string_drop n1 r1 in
    let n2 := if String.prefix newline r2 then 1%nat else 0%nat in
    (3 + n1 + n2)%nat
  else 0%nat.

(** [text.replace(/```(?:json)?\n?/g, "")]; [skip] characters of a match
    are still to be dropped. *)
Fixpoint remove_fences (skip : nat) (s : string) : string :=
  match s with
  | EmptyString => EmptyString
  | String c rest =>
      match skip with
      | S k => remove_fences k rest
      | O =>
          match fence_length s with
          | O => String c (remove_fences 0 rest)
          | S k => remove_fences k rest
          end
      end
  end.

(** The white space [trim()] removes, as far as it is ASCII: tab, line feed,
    vertical tab, form feed, carriage return and space. *)
Definition is_space (c : ascii) : bool :=
  let n := nat_of_ascii c in
  (Nat.leb 9 n && Nat.leb n 13) || Nat.eqb n 32.

Fixpoint trimStart (s : string) : string :=
  match s with
  | String c r => if is_space c then trimStart r else s
  | EmptyString => EmptyString
  end.

Fixpoint reverse (acc s : string) : string :=
  match s with
  | EmptyString => acc
  | String c r => reverse (String c acc) r
  end.

Definition trim (s : string) : string :=
  reverse "" (trimStart (reverse "" (trimStart s))).

Definition cleanText (text : string) : string := trim (remove_fences 0 text).

#[local] Unset Elimination Schemes.
Inductive JSON : Type :=
| JNull
| JBool (b : bool)
| JNumber (n : Z)
| JString (s : string)
| JArray (items : list JSON)
| JObject (fields : list (string * JSON)).
#[local] Set Elimination Schemes.

Fixpoint assoc (k : string) (fields : list (string * JSON)) : option JSON :=
  match fields with
  | [] => None
  | (k', v) :: r => if String.eqb k k' then Some v else assoc k r
  end.

(** [data.key]: a TypeError on [null], [undefined] on a missing key or on
    a value that is not an object. *)
Definition get (data : JSON) (key : string) : Action (option JSON) :=
  match data with
  | JNull => throw "Cannot read properties of null"
  | JObject fields => ret (assoc key fields)
  | _ => ret None
  end.

Record File := {
  file_bytes : list Byte.byte;
  file_type : string
}.

Record Scanned := {
  s_amount : option Z;
  s_date : JSDate.t;
  s_description : option JSON;
  s_category : option JSON;
  s_merchantName : option JSON
}.

Section Adapter.

(** The external collaborators: the generative model, from the encoded
    image to the text of its response, and the built-in parsers. *)
Variable generateContent : File -> Outcome string.
Variable JSON_parse : string -> option JSON.
Variable parseFloat : option JSON -> option Z.
Variable new_Date : option JSON -> JSDate.t.

Definition parse_receipt (cleanedText : string) : Action Scanned :=
  match JSON_parse cleanedText with
  | None => throw "Unexpected token in JSON"
  | Some data =>
      amount <- get data "amount" ;;
      date <- get data "date" ;;
      description <- get data "description" ;;
      category <- get data "category" ;;
      merchantName <- get data "merchantName" ;;
      ret {| s_amount := parseFloat amount;
             s_date := new_Date date;
             s_description := description;
             s_category := category;
             s_merchantName := merchantName |}
  end.

Definition scanReceipt (file : File) : Action Scanned :=
  try_catch
    (text <- (fun w => (generateContent file, w)) ;;
     let cleanedText := cleanText text in
     try_catch (parse_receipt cleanedText)
               (fun _ => throw "Invalid receipt format"))
    (fun _ => throw "Failed to process receipt").

End Adapter.

End Receipt.

(** ** The demo seeder *)

Module Seed.

Definition ACCOUNT_ID : string := "8e9de477-116a-4394-9d9f-c295813af632".
Definition USER_ID : string := "2817d31d-5dfc-4059-9c71-5c4becacb5c4".

(** A category with its range in whole currency units. *)
Record Category := {
  cat_name : string;
  cat_min : Z;
  cat_max : Z
}.

(** [CATEGORIES[type]]; the generator only asks for the two keys. *)
Definition CATEGORIES (type : string) : list Category :=
  if String.eqb type "INCOME" then
    [ {| cat_name := "salary"; cat_min := 5000; cat_max := 8000 |};
      {| cat_name := "freelance"; cat_min := 1000; cat_max := 3000 |};
      {| cat_name := "investments"; cat_min := 500; cat_max := 2000 |};
      {| cat_name := "other-income"; cat_min := 100; cat_max := 1000 |} ]
  else if String.eqb type "EXPENSE" then
    [ {| cat_name := "housing"; cat_min := 1000; cat_max := 2000 |};
      {| cat_name := "transportation"; cat_min := 100; cat_max := 500 |};
      {| cat_name := "groceries"; cat_min := 200; cat_max := 600 |};
      {| cat_name := "utilities"; cat_min := 100; cat_max := 300 |};
      {| cat_name := "entertainment"; cat_min := 50; cat_max := 200 |};
      {| cat_name := "food"; cat_min := 50; cat_max := 150 |};
      {| cat_name := "shopping"; cat_min := 100; cat_max := 500 |};
      {| cat_name := "healthcare"; cat_min := 100; cat_max := 1000 |};
      {| cat_name := "education"; cat_min := 200; cat_max := 1000 |};
      {| cat_name := "travel"; cat_min := 500; cat_max := 2000 |} ]
  else [].

Definition two53 : Z := 9007199254740992.

(** [Math.random()]: draw number [k], a multiple [m / 2^53] of [2^-53]
    in [[0, 1)]; the result is the numerator [m]. *)
Definition random (env : Env) (k : nat) : Z := Math_random env k mod two53.

(** [Math.floor(r * n)] for the draw with numerator [m]. *)
Definition floor_times (m n : Z) : Z := (m * n) / two53.

(** [Number((r * (max - min) + min).toFixed(2))], in cents: the nearest
    cent, the larger one on a tie. *)
Definition getRandomAmount (m min max : Z) : Z :=
  (2 * 100 * m * (max - min) + two53) / (2 * two53) + 100 * min.

(** The generator's variables: the array, the running sum and the number
    of draws made so far. *)
Record Gen := {
  g_transactions : list Transaction;
  g_balanceChange : Z;
  g_draws : nat
}.

Definition getRandomCategory (env : Env) (type : string) (k : nat)
  : string * Z :=
  let categories := CATEGORIES type in
  let idx := floor_times (random env k) (Z.of_nat (length categories)) in
  let category :=
    nth (Z.to_nat idx) categories
        {| cat_name := ""; cat_min := 0; cat_max := 0 |} in
  let amount :=
    getRandomAmount (random env (S k)) (cat_min category) (cat_max category) in
  (cat_name category, amount).

(** One pass of the inner loop body: three draws, one row pushed. *)
Definition push_transaction (env : Env) (date : JSDate.t) (g : Gen) : Gen :=
  let k := g_draws g in
  let type := if 5 * random env k <? 2 * two53 then "INCOME" else "EXPENSE" in
  let '(category, amount) := getRandomCategory env type (S k) in
  let signedAmount := if String.eqb type "INCOME" then amount else - amount in
  let row :=
    {| tx_id := "";
       tx_type := type;
       tx_amount := Z.abs signedAmount;
       tx_description :=
         Some ((if String.eqb type "INCOME" then "Received" else "Paid for")
               ++ " " ++ category)%string;
       tx_date := date;
       tx_category := category;
       tx_status := Some "COMPLETED";
       tx_userId := USER_ID;
       tx_accountId := ACCOUNT_ID;
       tx_isRecurring := false;
       tx_recurringInterval := None;
       tx_nextRecurringDate := None;
       tx_createdAt := Some date;
       tx_updatedAt := Some date |} in
  {| g_transactions := g_transactions g ++ [row];
     g_balanceChange := g_balanceChange g + signedAmount;
     g_draws := S (S (S k)) |}.

(** [for (let j = 0; j < transactionsPerDay; j++)] with [n] passes left. *)
Fixpoint day_loop (env : Env) (date : JSDate.t) (n : nat) (g : Gen) : Gen :=
  match n with
  | O => g
  | S n' => day_loop env date n' (push_transaction env date g)
  end.

(** date-fns [subDays(date, amount)]: [setDate(getDate() - amount)]. *)
Definition subDays (date : JSDate.t) (amount : Z) : JSDate.t :=
  if amount =? 0 then date
  else JSDate.setDate date (JSDate.plus (JSDate.getDate date) (- amount)).

(** [new Date()]: the clock.  The loop is synchronous, and all the readings
    of one run are taken to be the same instant. *)
Definition new_Date (env : Env) : JSDate.t := JSDate.TimeClip (now env).

(** [for (let i = 90; i >= 0; i--)] with [i = n - 1] next. *)
Fixpoint days_loop (env : Env) (n : nat) (g : Gen) : Gen :=
  match n with
  | O => g
  | S i =>
      let date := subDays (new_Date env) (Z.of_nat i) in
      let transactionsPerDay := floor_times (random env (g_draws g)) 3 + 1 in
      let g1 := {| g_transactions := g_transactions g;
                   g_balanceChange := g_balanceChange g;
                   g_draws := S (g_draws g) |} in
      days_loop env i (day_loop env date (Z.to_nat transactionsPerDay) g1)
  end.

Definition generate (env : Env) : Gen :=
  days_loop env 91
    {| g_transactions := []; g_balanceChange := 0; g_draws := 0 |}.

(** [db.transaction.deleteMany({ where: { accountId } })] *)
Definition transaction_deleteMany (accountId : string) : Stmt nat :=
  fun d =>
    let kept :=
      filter (fun kv : string * Transaction => tx_accountId (snd kv) <> accountId)
             (transactions d) in
    Return ((size (transactions d) - size kept)%nat, with_transactions d kept).

Definition with_id (id : string) (row : Transaction) : Transaction :=
  {| tx_id := id;
     tx_type := tx_type row;
     tx_amount := tx_amount row;
     tx_description := tx_description row;
     tx_date := tx_date row;
     tx_category := tx_category row;
     tx_status := tx_status row;
     tx_userId := tx_userId row;
     tx_accountId := tx_accountId row;
     tx_isRecurring := tx_isRecurring row;
     tx_recurringInterval := tx_recurringInterval row;
     tx_nextRecurringDate := tx_nextRecurringDate row;
     tx_createdAt := tx_createdAt row;
     tx_updatedAt := tx_updatedAt row |}.

(** The rows of a bulk insert get the generated ids [gen k], [gen (k+1)],
    ...; a taken id fails the statement. *)
Fixpoint insert_rows (gen : nat -> string) (k : nat) (rows : list Transaction)
    (m : gmap string Transaction) : Outcome (gmap string Transaction) :=
  match rows with
  | [] => Return m
  | row :: rest =>
      match m !! gen k with
      | Some _ => Throw "Unique constraint failed on the fields: (`id`)"
      | None => insert_rows gen (S k) rest (<[gen k := with_id (gen k) row]> m)
      end
  end.

(** [db.transaction.createMany({ data })] *)
Definition transaction_createMany (env : Env) (data : list Transaction)
  : Stmt nat :=
  fun d => match insert_rows (uuid env) 0 data (transactions d) with
           | Return m => Return (length data, with_transactions d m)
           | Throw msg => Throw msg
           end.

Definition set_balance_updatedAt (b : Z) (at_ : JSDate.t) (a : Account)
  : Account :=
  {| account_id := account_id a; account_userId := account_userId a;
     balance := b; account_updatedAt := Some at_ |}.

Definition seedTransactions_body (env : Env) : Action (ActionResult (nat * Z)) :=
  account <- read (account_findFirst ACCOUNT_ID USER_ID) ;;
  match account with
  | None =>
      throw ("Account " ++ ACCOUNT_ID ++ " not found for user " ++ USER_ID)%string
  | Some account =>
      let g := generate env in
      let transactions := g_transactions g in
      let balanceChange := g_balanceChange g in
      result <- dollar_transaction3 env
                  (transaction_deleteMany ACCOUNT_ID)
                  (transaction_createMany env transactions)
                  (account_update ACCOUNT_ID
                     (set_balance_updatedAt (balance account + balanceChange)
                                            (new_Date env))) ;;
      ret (Success (fst (snd result), balance (snd (snd result))))
  end.

Definition seedTransactions (env : Env) : Action (ActionResult (nat * Z)) :=
  try_catch (seedTransactions_body env)
            (fun message => ret (Failure message)).

End Seed.

(** ** Reading a batch of rows *)

(** The signed amount of a stored row (an EXPENSE counts negative) and the
    net delta of a list of rows. *)
Definition signed_amount (t : Transaction) : Z :=
  balanceChange_of (tx_type t) (tx_amount t).

Definition net_delta (rows : list Transaction) : Z :=
  foldr (fun t acc => signed_amount t + acc) 0 rows.

(** The rows of a list dated [date]. *)
Definition on_day (date : JSDate.t) (rows : list Transaction)
  : list Transaction :=
  filter (fun t => tx_date t = date) rows.

(** The date of the pass of the outer loop with counter [i]. *)
Definition seed_date (env : Env) (i : nat) : JSDate.t :=
  Seed.subDays (Seed.new_Date env) (Z.of_nat i).

(** ** Sample data

    Two users, their accounts and one stored transaction, used to run the
    actions on concrete inputs. *)

Module Sample.

Definition alice : User := {| user_id := "u-alice"; clerkUserId := "clerk_alice" |}.
Definition bob : User := {| user_id := "u-bob"; clerkUserId := "clerk_bob" |}.

Definition checking : Account :=
  {| account_id := "acc-checking"; account_userId := "u-alice";
     balance := 100000; account_updatedAt := None |}.
Definition savings : Account :=
  {| account_id := "acc-savings"; account_userId := "u-alice";
     balance := 500000; account_updatedAt := None |}.
Definition bobs : Account :=
  {| account_id := "acc-bob"; account_userId := "u-bob";
     balance := 7000; account_updatedAt := None |}.

(** A $100 expense of alice on her checking account. *)
Definition rent : Transaction :=
  {| tx_id := "tx-rent"; tx_type := "EXPENSE"; tx_amount := 10000;
     tx_description := Some "rent"; tx_date := JSDate.ofCivil 2024 0 31 0;
     tx_category := "housing"; tx_status := Some "COMPLETED";
     tx_userId := "u-alice"; tx_accountId := "acc-checking";
     tx_isRecurring := false; tx_recurringInterval := None;
     tx_nextRecurringDate := None; tx_createdAt := None;
     tx_updatedAt := None |}.

(** A transaction of bob. *)
Definition bobs_lunch : Transaction :=
  {| tx_id := "tx-lunch"; tx_type := "EXPENSE"; tx_amount := 1500;
     tx_description := Some "lunch"; tx_date := JSDate.ofCivil 2024 1 3 0;
     tx_category := "food"; tx_status := Some "COMPLETED";
     tx_userId := "u-bob"; tx_accountId := "acc-bob";
     tx_isRecurring := false; tx_recurringInterval := None;
     tx_nextRecurringDate := None; tx_createdAt := None;
     tx_updatedAt := None |}.

Definition database : DB :=
  {| users := [alice; bob];
     accounts :=
       <["acc-checking" := checking]>
         (<["acc-savings" := savings]> (<["acc-bob" := bobs]> ∅));
     transactions :=
       <["tx-rent" := rent]> (<["tx-lunch" := bobs_lunch]> ∅) |}.

Definition world : World := {| db := database; revalidated := [] |}.

(** A request of alice that nothing stops. *)
Definition env : Env :=
  {| auth_userId := Some "clerk_alice";
     aj_protect := Allowed;
     uuid := fun k => ("tx-new-" ++ String (ascii_of_nat (65 + k)) "")%string;
     stmt_fault := fun _ => None;
     now := 1706659200000;
     Math_random := fun k => Z.of_nat k * 1234567890123457 |}.

(** A request without a session. *)
Definition anonymous : Env :=
  {| auth_userId := None;
     aj_protect := Allowed;
     uuid := uuid env;
     stmt_fault := fun _ => None;
     now := now env;
     Math_random := Math_random env |}.

(** A monthly recurring $100 expense on the checking account. *)
Definition monthly_expense : TransactionData :=
  {| d_type := "EXPENSE"; d_amount := 10000; d_description := Some "gym";
     d_date := JSDate.ofCivil 2024 0 15 0; d_category := "healthcare";
     d_accountId := "acc-checking"; d_isRecurring := true;
     d_recurringInterval := Some "MONTHLY" |}.

(** The rent raised to $150, same account. *)
Definition raised_rent : TransactionData :=
  {| d_type := "EXPENSE"; d_amount := 15000; d_description := Some "rent";
     d_date := JSDate.ofCivil 2024 0 31 0; d_category := "housing";
     d_accountId := "acc-checking"; d_isRecurring := false;
     d_recurringInterval := None |}.

(** The rent moved to the savings account. *)
Definition moved_rent : TransactionData :=
  {| d_type := "EXPENSE"; d_amount := 10000; d_description := Some "rent";
     d_date := JSDate.ofCivil 2024 0 31 0; d_category := "housing";
     d_accountId := "acc-savings"; d_isRecurring := false;
     d_recurringInterval := None |}.

Definition any_query : Query :=
  {| q_userId := None; q_where := fun _ => true |}.

(** A receipt image and a model that answers with fenced text that is
    not JSON. *)
Definition receipt_image : Receipt.File :=
  {| Receipt.file_bytes := []; Receipt.file_type := "image/png" |}.

Definition garbage_text : string :=
  ("```json" ++ Receipt.newline ++ "not json" ++ Receipt.newline ++ "```")%string.

Definition fenced_garbage (file : Receipt.File) : Outcome string :=
  Return garbage_text.

Definition rejects_garbage (text : string) : option Receipt.JSON :=
  if String.eqb text "not json" then None else Some Receipt.JNull.

(** The demo user with the demo account, which holds one old row; bob's
    row lives in the same table. *)
Definition demo_user : User :=
  {| user_id := Seed.USER_ID; clerkUserId := "clerk_demo" |}.

Definition demo_account : Account :=
  {| account_id := Seed.ACCOUNT_ID; account_userId := Seed.USER_ID;
     balance := 250000; account_updatedAt := None |}.

Definition old_seeded : Transaction :=
  {| tx_id := "tx-old"; tx_type := "INCOME"; tx_amount := 123400;
     tx_description := Some "Received salary";
     tx_date := JSDate.ofCivil 2023 5 1 0;
     tx_category := "salary"; tx_status := Some "COMPLETED";
     tx_userId := Seed.USER_ID; tx_accountId := Seed.ACCOUNT_ID;
     tx_isRecurring := false; tx_recurringInterval := None;
     tx_nextRecurringDate := None; tx_createdAt := None;
     tx_updatedAt := None |}.

Definition demo_world : World :=
  {| db :=
       {| users := [demo_user; bob];
          accounts :=
            <[Seed.ACCOUNT_ID := demo_account]> (<["acc-bob" := bobs]> ∅);
          transactions :=
            <["tx-old" := old_seeded]> (<["tx-lunch" := bobs_lunch]> ∅) |};
     revalidated := [] |}.

(** The seeder's environment: ids "seed-" followed by two characters that
    encode the row number. *)
Definition seed_env : Env :=
  {| auth_userId := None;
     aj_protect := Allowed;
     uuid := fun k =>
               ("seed-" ++ String (ascii_of_nat (k / 256))
                             (String (ascii_of_nat (k mod 256)) ""))%string;
     stmt_fault := fun _ => None;
     now := 1706659200000;
     Math_random := fun k => Z.of_nat k * 1234567890123457 + 987654321 |}.

End Sample.

(** ** The ledger invariant

    What a row adds to the sum of an account, the sum of the signed amounts
    of the rows that reference an account, and the distance of the stored
    balance from that sum. *)

Definition contribution (accountId : string) (t : Transaction) : Z :=
  if String.eqb (tx_accountId t) accountId then signed_amount t else 0.

Definition ledger_sum (accountId : string) (m : gmap string Transaction) : Z :=
  map_fold (fun _ t acc => contribution accountId t + acc) 0 m.

Definition drift (accountId : string) (d : DB) : option Z :=
  (fun a => balance a - ledger_sum accountId (transactions d))
    <$> accounts d !! accountId.

(** [a] is not older than [b]. *)
Definition not_older (a b : Transaction) : Prop :=
  date_leb (tx_date b) (tx_date a) = true.

(** ** Reading a cleaned text *)

(** Whether a fence marker (three backticks) occurs in a text, and whether
    a text starts or ends with white space. *)
Fixpoint contains_fence (s : string) : bool :=
  match s with
  | EmptyString => false
  | String _ r => String.prefix "```" s || contains_fence r
  end.

Definition starts_with_space (s : string) : bool :=
  match s with
  | String c _ => Receipt.is_space c
  | EmptyString => false
  end.

Definition ends_with_space (s : string) : bool :=
  starts_with_space (Receipt.reverse "" s).

(** The row pushed by one pass: one of the two types, a category of that
    type with an amount in the range of the type's categories, the fixed
    status, user and account, no recurrence. *)
Definition seeded_shape (date : JSDate.t) (row : Transaction) : Prop :=
  ((tx_type row = "INCOME" /\ 10000 <= tx_amount row <= 800000)
   \/ (tx_type row = "EXPENSE" /\ 5000 <= tx_amount row <= 200000)) /\
  tx_category row ∈ (Seed.cat_name <$> Seed.CATEGORIES (tx_type row)) /\
  tx_date row = date /\
  tx_status row = Some "COMPLETED" /\
  tx_userId row = Seed.USER_ID /\ tx_accountId row = Seed.ACCOUNT_ID /\
  tx_isRecurring row = false /\ tx_nextRecurringDate row = None.

(** [n] applications of [f]. *)
Fixpoint repeat_apply {A} (n : nat) (f : A -> A) (x : A) : A :=
  match n with
  | O => x
  | S k => repeat_apply k f (f x)
  end.

(** ** The persistence client singleton *)

Module Prisma.

(** [globalThis] as the module sees it, and the clients built so far; a
    client is known by the number of its construction. *)
Record Global := {
  prisma : option nat;
  constructed : nat
}.

(** [new PrismaClient({ ... })] *)
Definition prismaClientSingleton (g : Global) : nat * Global :=
  (constructed g, {| prisma := prisma g; constructed := S (constructed g) |}).

(** One evaluation of the module: [db] and the global it leaves.
    [NODE_ENV] is [None] when the variable is not set. *)
Definition load (NODE_ENV : option string) (g : Global) : nat * Global :=
  let '(db, g1) :=
    match prisma g with
    | Some client => (client, g)
    | None => prismaClientSingleton g
    end in
  if negb (bool_decide (NODE_ENV = Some "production"))
  then (db, {| prisma := Some db; constructed := constructed g1 |})
  else (db, g1).

End Prisma.

(** ** The transaction table component *)

Module TransactionTable.

Definition RECURRING_INTERVALS (key : string) : option string :=
  if String.eqb key "DAILY" then Some "Daily"
  else if String.eqb key "WEEKLY" then Some "Weekly"
  else if String.eqb key "MONTHLY" then Some "Monthly"
  else if String.eqb key "YEARLY" then Some "Yearly"
  else None.

Record SortConfig := {
  field : string;
  direction : string
}.

(** [useState({ field: "date", direction: "desc" })] *)
Definition initialSortConfig : SortConfig :=
  {| field := "date"; direction := "desc" |}.

(** [setSortConfig(current => ({ field, direction: current.field &&
    current.direction === "asc" ? "desc" : "asc" }))] *)
Definition handleSort (field' : string) (current : SortConfig) : SortConfig :=
  {| field := field';
     direction :=
       if truthy (Some (field current)) && String.eqb (direction current) "asc"
       then "desc" else "asc" |}.

(** The chevron beside a column title: none, up or down. *)
Inductive Chevron : Type := NoChevron | ChevronUp | ChevronDown.

Definition chevron (sortConfig : SortConfig) (column : string) : Chevron :=
  if String.eqb (field sortConfig) column then
    if String.eqb (direction sortConfig) "asc" then ChevronUp else ChevronDown
  else NoChevron.

(** The cell of the Recurring column. *)
Inductive Badge : Type :=
| Recurring (label : option string) (nextDate : string)
| OneTime.

(** A row of the table body. *)
Inductive Row : Type :=
| NoTransactionFound
| TransactionRow (key : string) (date : string) (description : option string)
    (category : string) (background : option string)
    (color : string) (amount : string) (recurring : Badge).

Section Render.

(** What the component imports: date-fns [format(date, "PP")], the colour
    table of the categories and [Number.prototype.toFixed(2)]. *)
Variable format : JSDate.t -> string.
Variable categoryColors : string -> option string.
Variable toFixed2 : Z -> string.

(** [new Date(value)] for a value that is a Date or [null]: [null] is the
    epoch. *)
Definition new_Date (value : option JSDate.t) : JSDate.t :=
  match value with
  | Some d => d
  | None => Some 0
  end.

Definition row (transaction : Transaction) : Row :=
  TransactionRow
    (tx_id transaction)
    (format (new_Date (Some (tx_date transaction))))
    (tx_description transaction)
    (tx_category transaction)
    (categoryColors (tx_category transaction))
    (if String.eqb (tx_type transaction) "EXPENSE" then "red" else "green")
    ((if String.eqb (tx_type transaction) "EXPENSE" then "-" else "+")
     ++ "$" ++ toFixed2 (tx_amount transaction))%string
    (if tx_isRecurring transaction then
       Recurring
         (match tx_recurringInterval transaction with
          | Some interval => RECURRING_INTERVALS interval
          | None => None
          end)
         (format (new_Date (tx_nextRecurringDate transaction)))
     else OneTime).

(** The table body; [filterAndSortedTransaction] is [transactions]. *)
Definition body (sortConfig : SortConfig) (transactions : list Transaction)
  : list Row :=
  let filterAndSortedTransaction := transactions in
  if Nat.eqb (length filterAndSortedTransaction) 0 then [NoTransactionFound]
  else row <$> filterAndSortedTransaction.

End Render.

(** The Recurring cell of a row, if it is a transaction's row. *)
Definition badge_of (r : Row) : option Badge :=
  match r with
  | NoTransactionFound => None
  | TransactionRow _ _ _ _ _ _ _ recurring => Some recurring
  end.

End TransactionTable.

(** ** More sample data *)

Module Sample2.

(** A request of alice that the rate limiter refuses. *)
Definition rate_limited : Env :=
  {| auth_userId := Some "clerk_alice";
     aj_protect := DeniedRateLimit 0 30;
     uuid := uuid Sample.env;
     stmt_fault := fun _ => None;
     now := now Sample.env;
     Math_random := Math_random Sample.env |}.

(** A $20 expense that alice submits for bob's account. *)
Definition on_bobs_account : TransactionData :=
  {| d_type := "EXPENSE"; d_amount := 2000; d_description := Some "taxi";
     d_date := JSDate.ofCivil 2024 1 10 0; d_category := "transportation";
     d_accountId := "acc-bob"; d_isRecurring := false;
     d_recurringInterval := None |}.

(** The rent, submitted for an account that does not exist. *)
Definition on_missing_account : TransactionData :=
  {| d_type := "EXPENSE"; d_amount := 10000; d_description := Some "rent";
     d_date := JSDate.ofCivil 2024 0 31 0; d_category := "housing";
     d_accountId := "acc-closed"; d_isRecurring := false;
     d_recurringInterval := None |}.

(** The rent with another description only. *)
Definition renamed_rent : TransactionData :=
  {| d_type := "EXPENSE"; d_amount := 10000; d_description := Some "January rent";
     d_date := JSDate.ofCivil 2024 0 31 0; d_category := "housing";
     d_accountId := "acc-checking"; d_isRecurring := false;
     d_recurringInterval := None |}.

(** Marked recurring, but without an interval. *)
Definition recurring_without_interval : TransactionData :=
  {| d_type := "INCOME"; d_amount := 30000; d_description := Some "refund";
     d_date := JSDate.ofCivil 2024 1 1 0; d_category := "other-income";
     d_accountId := "acc-checking"; d_isRecurring := true;
     d_recurringInterval := None |}.

(** A world without the demo account. *)
Definition no_demo_account : World :=
  {| db := Sample.database; revalidated := [] |}.

(** A model that answers with a bare number. *)
Definition answers_number (file : Receipt.File) : Outcome string := Return "42".

Definition parses_number (text : string) : option Receipt.JSON :=
  if String.eqb text "42" then Some (Receipt.JNumber 42) else None.

End Sample2.

(** * Properties *)

(** ** The calendar *)

Lemma YearFromDay_spec d :
  JSDate.DayFromYear (JSDate.YearFromDay d) <= d
  < JSDate.DayFromYear (JSDate.YearFromDay d + 1).
Proof.
  unfold JSDate.YearFromDay, JSDate.DayFromYear.
  set (c := 400 * d / 146097).
  assert (Hc : 146097 * c <= 400 * d < 146097 * c + 146097).
  { subst c. pose proof (Z.div_mod (400 * d) 146097 ltac:(lia)).
    pose proof (Z.mod_pos_bound (400 * d) 146097 ltac:(lia)). lia. }
  clearbody c.
  repeat match goal with |- context [Z.leb ?a ?b] => destruct (Z.leb_spec a b) end;
  Z.div_mod_to_equations; lia.
Qed.

Lemma DayFromYear_succ y :
  JSDate.DayFromYear (y + 1) = JSDate.DayFromYear y + JSDate.DaysInYear y.
Proof.
  unfold JSDate.DaysInYear, JSDate.InLeapYear, JSDate.DayFromYear.
  repeat match goal with
         | |- context [Z.eqb ?a ?b] => destruct (Z.eqb_spec a b)
         end; cbn [negb]; Z.div_mod_to_equations; lia.
Qed.

Lemma InLeapYear_range y : 0 <= JSDate.InLeapYear y <= 1.
Proof.
  unfold JSDate.InLeapYear.
  repeat match goal with
         | |- context [Z.eqb ?a ?b] => destruct (Z.eqb_spec a b)
         end; cbn [negb]; lia.
Qed.

(** The year of a day is determined by the two bounds of the specification. *)
Lemma YearFromDay_unique d y :
  JSDate.DayFromYear y <= d < JSDate.DayFromYear (y + 1) ->
  JSDate.YearFromDay d = y.
Proof.
  intros Hy. pose proof (YearFromDay_spec d) as Hs.
  set (z := JSDate.YearFromDay d) in *. clearbody z.
  unfold JSDate.DayFromYear in *. Z.div_mod_to_equations. lia.
Qed.

Lemma DayWithinYear_range d :
  0 <= JSDate.DayWithinYear d < 365 + JSDate.InLeapYear (JSDate.YearFromDay d).
Proof.
  unfold JSDate.DayWithinYear. pose proof (YearFromDay_spec d) as Hs.
  rewrite DayFromYear_succ in Hs. unfold JSDate.DaysInYear in Hs. lia.
Qed.

Lemma MonthFromDay_range d : 0 <= JSDate.MonthFromDay d <= 11.
Proof.
  unfold JSDate.MonthFromDay.
  repeat match goal with
         | |- context [Z.ltb ?a ?b] => destruct (Z.ltb_spec a b)
         end; lia.
Qed.

Lemma DateFromDay_positive d : 1 <= JSDate.DateFromDay d.
Proof.
  pose proof (DayWithinYear_range d) as Hw.
  pose proof (InLeapYear_range (JSDate.YearFromDay d)) as Hl.
  unfold JSDate.DateFromDay, JSDate.MonthFromDay.
  repeat match goal with
         | |- context [Z.ltb ?a ?b] => destruct (Z.ltb_spec a b)
         end; cbv [JSDate.monthStart Z.eqb Pos.eqb]; lia.
Qed.

(** Rebuilding a day from its own year, month and date, the date moved by
    [k], gives the day [k] days later. *)
Lemma MakeDay_of_day d k :
  JSDate.MakeDay (JSDate.YearFromDay d) (JSDate.MonthFromDay d)
                 (JSDate.DateFromDay d + k) = d + k.
Proof.
  pose proof (MonthFromDay_range d) as Hm.
  unfold JSDate.MakeDay, JSDate.DateFromDay, JSDate.DayWithinYear.
  rewrite (Z.div_small (JSDate.MonthFromDay d) 12) by lia.
  rewrite (Z.mod_small (JSDate.MonthFromDay d) 12) by lia.
  rewrite Z.add_0_r. lia.
Qed.

Lemma MakeDate_Day_TimeWithinDay tv k :
  JSDate.MakeDate (JSDate.Day tv + k) (JSDate.TimeWithinDay tv)
  = tv + k * JSDate.msPerDay.
Proof.
  unfold JSDate.MakeDate, JSDate.Day, JSDate.TimeWithinDay, JSDate.msPerDay.
  Z.div_mod_to_equations. lia.
Qed.

Lemma Day_MakeDate day ms :
  0 <= ms < JSDate.msPerDay -> JSDate.Day (JSDate.MakeDate day ms) = day.
Proof.
  unfold JSDate.MakeDate, JSDate.Day, JSDate.msPerDay.
  intros. Z.div_mod_to_equations. lia.
Qed.

Lemma TimeWithinDay_MakeDate day ms :
  0 <= ms < JSDate.msPerDay ->
  JSDate.TimeWithinDay (JSDate.MakeDate day ms) = ms.
Proof.
  unfold JSDate.MakeDate, JSDate.TimeWithinDay, JSDate.msPerDay.
  intros. Z.div_mod_to_equations. lia.
Qed.

(** [setDate(getDate() + k)] moves a Date by [k] days. *)
Lemma setDate_getDate_plus tv k :
  JSDate.setDate (Some tv) (JSDate.plus (JSDate.getDate (Some tv)) k)
  = JSDate.TimeClip (tv + k * JSDate.msPerDay).
Proof.
  cbn [JSDate.setDate JSDate.plus JSDate.getDate fmap option_fmap option_map].
  unfold JSDate.YearFromTime, JSDate.MonthFromTime, JSDate.DateFromTime.
  by rewrite MakeDay_of_day, MakeDate_Day_TimeWithinDay.
Qed.


(** A date that exists in its month is read back as it was made. *)
Lemma civil_of_MakeDay y m d :
  0 <= m <= 11 ->
  1 <= d <= JSDate.daysInMonth m (JSDate.InLeapYear y) ->
  JSDate.YearFromDay (JSDate.MakeDay y m d) = y /\
  JSDate.MonthFromDay (JSDate.MakeDay y m d) = m /\
  JSDate.DateFromDay (JSDate.MakeDay y m d) = d.
Proof.
  intros Hm Hd. pose proof (InLeapYear_range y) as Hl.
  assert (HD : JSDate.MakeDay y m d
               = JSDate.DayFromYear y
                 + (JSDate.monthStart m (JSDate.InLeapYear y) + d - 1)).
  { unfold JSDate.MakeDay. rewrite (Z.div_small m 12), (Z.mod_small m 12) by lia.
    rewrite Z.add_0_r. lia. }
  assert (Hw : 0 <= JSDate.monthStart m (JSDate.InLeapYear y) + d - 1
               < 365 + JSDate.InLeapYear y).
  { unfold JSDate.monthStart, JSDate.daysInMonth in *.
    repeat match goal with
           | H : context [Z.eqb ?a ?b] |- _ => destruct (Z.eqb_spec a b)
           | |- context [Z.eqb ?a ?b] => destruct (Z.eqb_spec a b)
           end; cbn [orb] in *; lia. }
  assert (Hy : JSDate.YearFromDay (JSDate.MakeDay y m d) = y).
  { apply YearFromDay_unique. rewrite DayFromYear_succ.
    unfold JSDate.DaysInYear. lia. }
  assert (Hm' : JSDate.MonthFromDay (JSDate.MakeDay y m d) = m).
  { unfold JSDate.MonthFromDay, JSDate.DayWithinYear. rewrite Hy, HD.
    unfold JSDate.monthStart, JSDate.daysInMonth in *.
    repeat match goal with
           | H : context [Z.eqb ?a ?b] |- _ => destruct (Z.eqb_spec a b)
           end; cbn [orb] in *;
    repeat match goal with
           | |- context [Z.ltb ?a ?b] => destruct (Z.ltb_spec a b)
           end; lia. }
  split; [done|]. split; [done|].
  unfold JSDate.DateFromDay, JSDate.DayWithinYear. rewrite Hm', Hy, HD. lia.
Qed.

(** X2: MONTHLY keeps the day of the month and the time of day and moves to
    the next calendar month, provided the day exists in that month. *)
Lemma calculateNextRecurringDate_monthly_valid tv :
  let y := JSDate.YearFromTime tv in
  let m := JSDate.MonthFromTime tv in
  let d := JSDate.DateFromTime tv in
  let y' := y + (m + 1) / 12 in
  let m' := (m + 1) mod 12 in
  d <= JSDate.daysInMonth m' (JSDate.InLeapYear y') ->
  exists tv',
    calculateNextRecurringDate (Some tv) "MONTHLY" = JSDate.TimeClip tv' /\
    JSDate.YearFromTime tv' = y' /\ JSDate.MonthFromTime tv' = m' /\
    JSDate.DateFromTime tv' = d /\
    JSDate.TimeWithinDay tv' = JSDate.TimeWithinDay tv.
Proof.
  intros y m d y' m' Hd.
  pose proof (MonthFromDay_range (JSDate.Day tv)) as Hm.
  pose proof (DayWithinYear_range (JSDate.Day tv)) as Hw.
  assert (Hd1 : 1 <= d) by apply DateFromDay_positive.
  assert (Hms : 0 <= JSDate.TimeWithinDay tv < JSDate.msPerDay).
  { unfold JSDate.TimeWithinDay, JSDate.msPerDay. apply Z.mod_pos_bound. lia. }
  exists (JSDate.MakeDate (JSDate.MakeDay y (m + 1) d) (JSDate.TimeWithinDay tv)).
  split; [reflexivity|].
  assert (HMD : JSDate.MakeDay y (m + 1) d = JSDate.MakeDay y' m' d).
  { unfold JSDate.MakeDay. subst y' m'.
    assert (0 <= (m + 1) mod 12 < 12) by (apply Z.mod_pos_bound; lia).
    rewrite (Z.div_small ((m + 1) mod 12) 12), (Z.mod_small ((m + 1) mod 12) 12)
      by lia.
    by rewrite Z.add_0_r. }
  assert (0 <= m' <= 11).
  { subst m'. pose proof (Z.mod_pos_bound (m + 1) 12). lia. }
  destruct (civil_of_MakeDay y' m' d) as (Hy' & Hm' & Hd'); [lia..|].
  unfold JSDate.YearFromTime, JSDate.MonthFromTime, JSDate.DateFromTime.
  rewrite Day_MakeDate, TimeWithinDay_MakeDate, HMD by done. done.
Qed.

(** X3: YEARLY keeps month, day and time of day and moves to the next
    calendar year, provided the day exists there (every day but a 29th of
    February). *)
Lemma calculateNextRecurringDate_yearly_valid tv :
  let y := JSDate.YearFromTime tv in
  let m := JSDate.MonthFromTime tv in
  let d := JSDate.DateFromTime tv in
  d <= JSDate.daysInMonth m (JSDate.InLeapYear (y + 1)) ->
  exists tv',
    calculateNextRecurringDate (Some tv) "YEARLY" = JSDate.TimeClip tv' /\
    JSDate.YearFromTime tv' = y + 1 /\ JSDate.MonthFromTime tv' = m /\
    JSDate.DateFromTime tv' = d /\
    JSDate.TimeWithinDay tv' = JSDate.TimeWithinDay tv.
Proof.
  intros y m d Hd.
  pose proof (MonthFromDay_range (JSDate.Day tv)) as Hm.
  pose proof (DayWithinYear_range (JSDate.Day tv)) as Hw.
  assert (Hd1 : 1 <= d) by apply DateFromDay_positive.
  assert (Hms : 0 <= JSDate.TimeWithinDay tv < JSDate.msPerDay).
  { unfold JSDate.TimeWithinDay, JSDate.msPerDay. apply Z.mod_pos_bound. lia. }
  exists (JSDate.MakeDate (JSDate.MakeDay (y + 1) m d) (JSDate.TimeWithinDay tv)).
  split; [reflexivity|].
  destruct (civil_of_MakeDay (y + 1) m d) as (Hy' & Hm' & Hd');
    [subst m; unfold JSDate.MonthFromTime; lia|lia|].
  unfold JSDate.YearFromTime, JSDate.MonthFromTime, JSDate.DateFromTime.
  rewrite Day_MakeDate, TimeWithinDay_MakeDate by done. done.
Qed.

(** C5 fails for MONTHLY at the end of a month: from any time of day on
    2024-01-31 the code returns the same time of day on 2024-03-02, for
    "February 31st" is counted on from the first of February; no date in
    February is produced. *)
Theorem monthly_from_january_31st_lands_in_march ms :
  0 <= ms < JSDate.msPerDay ->
  let start := JSDate.ofCivil 2024 0 31 ms in
  let next := calculateNextRecurringDate start "MONTHLY" in
  (JSDate.getFullYear start = Some 2024 /\ JSDate.getMonth start = Some 0 /\
   JSDate.getDate start = Some 31) /\
  next = JSDate.ofCivil 2024 2 2 ms /\
  JSDate.getFullYear next = Some 2024 /\ JSDate.getMonth next = Some 2 /\
  JSDate.getDate next = Some 2.
Proof.
  intros Hms start next.
  assert (Hstart : start = Some (JSDate.MakeDate 19753 ms)).
  { subst start. unfold JSDate.ofCivil, JSDate.TimeClip.
    change (JSDate.MakeDay 2024 0 31) with 19753.
    unfold JSDate.MakeDate, JSDate.maxTime, JSDate.msPerDay in *.
    destruct (Z.leb_spec (Z.abs (19753 * 86400000 + ms)) 8640000000000000);
      [done|lia]. }
  assert (Hclip : JSDate.ofCivil 2024 2 2 ms = Some (JSDate.MakeDate 19784 ms)).
  { unfold JSDate.ofCivil, JSDate.TimeClip.
    change (JSDate.MakeDay 2024 2 2) with 19784.
    unfold JSDate.MakeDate, JSDate.maxTime, JSDate.msPerDay in *.
    destruct (Z.leb_spec (Z.abs (19784 * 86400000 + ms)) 8640000000000000);
      [done|lia]. }
  assert (Hnext : next = Some (JSDate.MakeDate 19784 ms)).
  { subst next. rewrite Hstart, <- Hclip.
    unfold calculateNextRecurringDate, JSDate.copy. cbn [String.eqb Ascii.eqb].
    cbn [JSDate.setMonth JSDate.plus JSDate.getMonth fmap option_fmap option_map].
    unfold JSDate.YearFromTime, JSDate.MonthFromTime, JSDate.DateFromTime.
    rewrite Day_MakeDate, TimeWithinDay_MakeDate by done. reflexivity. }
  rewrite Hclip, Hnext, Hstart.
  unfold JSDate.getFullYear, JSDate.getMonth, JSDate.getDate.
  cbn [fmap option_fmap option_map].
  unfold JSDate.YearFromTime, JSDate.MonthFromTime, JSDate.DateFromTime.
  rewrite !Day_MakeDate by done.
  repeat split; vm_compute; reflexivity.
Qed.

Lemma monthly_from_january_31st_lands_in_march_witness :
  calculateNextRecurringDate (JSDate.ofCivil 2024 0 31 0) "MONTHLY"
  = JSDate.ofCivil 2024 2 2 0.
Proof.
  apply (monthly_from_january_31st_lands_in_march 0). by vm_compute.
Defined.

(** ** The shape of the outcomes of the mutation actions *)

Lemma account_findFirst_lookup id userId d a :
  account_findFirst id userId d = Some a -> accounts d !! id = Some a.
Proof.
  unfold account_findFirst. destruct (accounts d !! id) as [a0|]; [|done].
  destruct (String.eqb _ _); congruence.
Qed.

Lemma transaction_findFirst_lookup id userId d t :
  transaction_findFirst id userId d = Some t ->
  transactions d !! id = Some t /\ tx_userId t = userId.
Proof.
  unfold transaction_findFirst.
  destruct (transactions d !! id) as [t0|]; [|done].
  destruct (String.eqb_spec (tx_userId t0) userId); [|done].
  intros [= <-]. done.
Qed.

Lemma bind_Return {A B} (m : Action A) (k : A -> Action B) w a w' :
  m w = (Return a, w') -> bind m k w = k a w'.
Proof. unfold bind. by intros ->. Qed.

Lemma bind_Throw {A B} (m : Action A) (k : A -> Action B) w msg w' :
  m w = (Throw msg, w') -> bind m k w = (Throw msg, w').
Proof. unfold bind. by intros ->. Qed.

Lemma try_catch_Return {A} (body : Action A) handler w a w' :
  body w = (Return a, w') -> try_catch body handler w = (Return a, w').
Proof. unfold try_catch. by intros ->. Qed.

Lemma try_catch_Throw {A} (body : Action A) handler w msg w' :
  body w = (Throw msg, w') -> try_catch body handler w = handler msg w'.
Proof. unfold try_catch. by intros ->. Qed.

Ltac step_Return H := rewrite (bind_Return _ _ _ _ _ H).
Ltac stop_Throw H := right; eexists; apply (bind_Throw _ _ _ _ _ H).

Lemma authenticate_cases env w :
  (exists userId, auth_userId env = Some userId /\ userId <> "" /\
                  authenticate env w = (Return userId, w))
  \/ authenticate env w = (Throw "Unauthorized", w).
Proof.
  unfold authenticate. destruct (auth_userId env) as [u|]; [|by right].
  unfold truthy. destruct (String.eqb_spec u ""); [by right|].
  left. by exists u.
Qed.

Lemma resolve_user_cases userId w :
  (exists user, user_findFirst userId (db w) = Some user /\
                resolve_user userId w = (Return user, w))
  \/ (user_findFirst userId (db w) = None /\
      resolve_user userId w = (Throw "User not found", w)).
Proof.
  unfold resolve_user, bind, read.
  destruct (user_findFirst userId (db w)) as [u|]; [left; by exists u|by right].
Qed.

Lemma read_Return {A} (f : DB -> A) w : read f w = (Return (f (db w)), w).
Proof. done. Qed.

(** The batch primitive either commits the effect of both statements or
    throws and leaves the world as it was. *)
Lemma dollar_transaction2_cases {A B} env (s1 : Stmt A) (s2 : Stmt B) w :
  (exists a b d1 d2,
      stmt_fault env 0%nat = None /\ s1 (db w) = Return (a, d1) /\
      stmt_fault env 1%nat = None /\ s2 d1 = Return (b, d2) /\
      dollar_transaction2 env s1 s2 w =
        (Return (a, b), {| db := d2; revalidated := revalidated w |}))
  \/ (exists msg, dollar_transaction2 env s1 s2 w = (Throw msg, w)).
Proof.
  unfold dollar_transaction2, atomically, stmt_then, attempt.
  destruct (stmt_fault env 0%nat) as [m0|] eqn:Hf0;
    [right; eexists; reflexivity|].
  destruct (s1 (db w)) as [[a d1]|m] eqn:H1; [|right; eexists; reflexivity].
  destruct (stmt_fault env 1%nat) as [m1|] eqn:Hf1;
    [right; eexists; reflexivity|].
  destruct (s2 d1) as [[b d2]|m] eqn:H2; [|right; eexists; reflexivity].
  left. exists a, b, d1, d2. repeat split; done.
Qed.

Lemma transaction_create_Return row d r d' :
  transaction_create row d = Return (r, d') ->
  transactions d !! tx_id row = None /\ r = row /\
  d' = with_transactions d (<[tx_id row := row]> (transactions d)).
Proof.
  unfold transaction_create. destruct (transactions d !! tx_id row); [done|].
  by intros [= <- <-].
Qed.

Lemma transaction_update_Return id userId f d r d' :
  transaction_update id userId f d = Return (r, d') ->
  exists t, transaction_findFirst id userId d = Some t /\ r = f t /\
            d' = with_transactions d (<[id := f t]> (transactions d)).
Proof.
  unfold transaction_update.
  destruct (transaction_findFirst id userId d) as [t|]; [|done].
  intros [= <- <-]. by exists t.
Qed.

Lemma account_update_Return id f d r d' :
  account_update id f d = Return (r, d') ->
  exists a, accounts d !! id = Some a /\ r = f a /\
            d' = with_accounts d (<[id := f a]> (accounts d)).
Proof.
  unfold account_update. destruct (accounts d !! id) as [a|]; [|done].
  intros [= <- <-]. by exists a.
Qed.

Lemma createTransaction_body_cases env data w :
  (exists user account,
      create_accepted env data w user account /\
      createTransaction_body env data w =
        (Return (Success (created_row (uuid env 0) data user)),
         created_world env data user account w))
  \/ (exists msg, createTransaction_body env data w = (Throw msg, w)).
Proof.
  unfold createTransaction_body.
  destruct (authenticate_cases env w) as [(userId & Hauth & Hne & Ha)|Ha];
    [step_Return Ha|stop_Throw Ha].
  destruct (aj_protect env) eqn:Haj; simpl isDenied; cbv iota;
    [|right; eexists; reflexivity..].
  rewrite (bind_Return _ _ w tt w eq_refl).
  destruct (resolve_user_cases userId w) as [(user & Huser & Hr)|[_ Hr]];
    [step_Return Hr|stop_Throw Hr].
  rewrite (bind_Return _ _ _ _ _ (read_Return _ w)).
  destruct (account_findFirst _ _ (db w)) as [account|] eqn:Hacc;
    [|right; eexists; reflexivity].
  pose proof (account_findFirst_lookup _ _ _ _ Hacc) as Hlk.
  match goal with |- context [bind (dollar_transaction2 env ?s1 ?s2)] =>
    destruct (dollar_transaction2_cases env s1 s2 w)
      as [(r & a' & d1 & d2 & Hf0 & H1 & Hf1 & H2 & Ht)|(msg & Ht)]
  end; [step_Return Ht|stop_Throw Ht].
  apply transaction_create_Return in H1 as (Hfree & -> & ->).
  apply account_update_Return in H2 as (a0 & Ha0 & -> & ->).
  cbn [accounts with_transactions tx_id created_row] in *.
  assert (a0 = account) as -> by congruence.
  left. exists user, account. split; [|reflexivity].
  exists userId. repeat split; done.
Qed.

Lemma createTransaction_cases env data w :
  (exists user account,
      create_accepted env data w user account /\
      createTransaction env data w =
        (Return (Success (created_row (uuid env 0) data user)),
         created_world env data user account w))
  \/ (exists msg, createTransaction env data w = (Return (Failure msg), w)).
Proof.
  unfold createTransaction.
  destruct (createTransaction_body_cases env data w)
    as [(user & account & Hok & Hb)|(msg & Hb)].
  - left. exists user, account. split; [done|].
    by apply try_catch_Return.
  - right. exists msg. by rewrite (try_catch_Throw _ _ _ _ _ Hb).
Qed.

Lemma updateTransaction_body_cases env id data w :
  (exists user original account,
      update_accepted env id data w user original account /\
      updateTransaction_body env id data w =
        (Return (Success (updated_row data original)),
         updated_world id data original account w))
  \/ (exists msg, updateTransaction_body env id data w = (Throw msg, w)).
Proof.
  unfold updateTransaction_body.
  destruct (authenticate_cases env w) as [(userId & Hauth & Hne & Ha)|Ha];
    [step_Return Ha|stop_Throw Ha].
  destruct (resolve_user_cases userId w) as [(user & Huser & Hr)|[_ Hr]];
    [step_Return Hr|stop_Throw Hr].
  rewrite (bind_Return _ _ _ _ _ (read_Return _ w)).
  destruct (transaction_findFirst _ _ (db w)) as [original|] eqn:Horig;
    [|right; eexists; reflexivity].
  match goal with |- context [bind (dollar_transaction2 env ?s1 ?s2)] =>
    destruct (dollar_transaction2_cases env s1 s2 w)
      as [(r & a' & d1 & d2 & Hf0 & H1 & Hf1 & H2 & Ht)|(msg & Ht)]
  end; [step_Return Ht|stop_Throw Ht].
  apply transaction_update_Return in H1 as (t & Hfind & -> & ->).
  apply account_update_Return in H2 as (account & Hacc & -> & ->).
  cbn [accounts with_transactions] in *.
  assert (t = original) as -> by congruence.
  left. exists user, original, account. split; [|reflexivity].
  exists userId. repeat split; done.
Qed.

Lemma updateTransaction_cases env id data w :
  (exists user original account,
      update_accepted env id data w user original account /\
      updateTransaction env id data w =
        (Return (Success (updated_row data original)),
         updated_world id data original account w))
  \/ (exists msg, updateTransaction env id data w = (Return (Failure msg), w)).
Proof.
  unfold updateTransaction.
  destruct (updateTransaction_body_cases env id data w)
    as [(user & original & account & Hok & Hb)|(msg & Hb)].
  - left. exists user, original, account. split; [done|].
    by apply try_catch_Return.
  - right. exists msg. by rewrite (try_catch_Throw _ _ _ _ _ Hb).
Qed.

(** ** The ledger *)



(** The increment is applied to the balance the statement finds when it
    runs, whatever was read earlier; the absolute set of createTransaction
    writes the value computed from the earlier read. *)
Lemma account_update_increment_at_write id n d a :
  accounts d !! id = Some a ->
  exists a' d',
    account_update id (increment_balance n) d = Return (a', d') /\
    accounts d' !! id = Some a' /\ balance a' = balance a + n.
Proof.
  intros Ha. unfold account_update. rewrite Ha. eexists _, _.
  split; [reflexivity|]. split; [|reflexivity].
  cbn [accounts with_accounts]. apply lookup_insert_eq.
Qed.



(** C3: in createTransaction and updateTransaction the transaction-row write
    and the balance write take effect together or not at all.  Either every
    guard passed and both statements ran, and then the transaction table
    and the account table each hold exactly their one new row; or the
    action reports a failure and the world is the one it started from. *)
Theorem mutation_writes_are_atomic env id data w :
  ((exists user account,
       create_accepted env data w user account /\
       let r := created_row (uuid env 0) data user in
       let w' := created_world env data user account w in
       createTransaction env data w = (Return (Success r), w') /\
       transactions (db w') = <[tx_id r := r]> (transactions (db w)) /\
       accounts (db w') =
         <[d_accountId data :=
             set_balance
               (balance account + balanceChange_of (d_type data) (d_amount data))
               account]> (accounts (db w)))
   \/ (exists msg, createTransaction env data w = (Return (Failure msg), w)))
  /\
  ((exists user original account,
       update_accepted env id data w user original account /\
       let r := updated_row data original in
       let w' := updated_world id data original account w in
       updateTransaction env id data w = (Return (Success r), w') /\
       transactions (db w') = <[id := r]> (transactions (db w)) /\
       accounts (db w') =
         <[d_accountId data :=
             increment_balance
               (balanceChange_of (d_type data) (d_amount data)
                - balanceChange_of (tx_type original) (tx_amount original))
               account]> (accounts (db w)))
   \/ (exists msg, updateTransaction env id data w = (Return (Failure msg), w))).
Proof.
  split.
  - destruct (createTransaction_cases env data w)
      as [(user & account & Hok & Hc)|Hfail]; [left|by right].
    exists user, account. by repeat split.
  - destruct (updateTransaction_cases env id data w)
      as [(user & original & account & Hok & Hc)|Hfail]; [left|by right].
    exists user, original, account. by repeat split.
Qed.

(** A write interrupted between the two statements: the row insert ran on
    the working copy, the balance update failed, nothing is observable. *)
Example createTransaction_interrupted :
  let env :=
    {| auth_userId := Some "clerk_alice"; aj_protect := Allowed;
       uuid := uuid Sample.env;
       stmt_fault := fun k => if Nat.eqb k 1 then Some "connection lost" else None;
       now := now Sample.env; Math_random := Math_random Sample.env |} in
  createTransaction env Sample.monthly_expense Sample.world
  = (Return (Failure "connection lost"), Sample.world).
Proof. vm_compute. reflexivity. Qed.

Lemma nextRecurringDate_of_iff data :
  nextRecurringDate_of data <> None <->
  d_isRecurring data = true /\ truthy (d_recurringInterval data) = true.
Proof.
  unfold nextRecurringDate_of.
  destruct (d_recurringInterval data) as [interval|]; [|by intuition].
  destruct (d_isRecurring data); cbn [andb].
  - destruct (truthy (Some interval)); by intuition.
  - by intuition.
Qed.

(** C4: the row written by createTransaction or updateTransaction has a
    non-null nextRecurringDate exactly when the submitted isRecurring is true
    and the submitted recurringInterval is set (a non-empty string, neither
    null nor undefined). *)
Theorem nextRecurringDate_iff_recurring env id data w r w' :
  createTransaction env data w = (Return (Success r), w')
  \/ updateTransaction env id data w = (Return (Success r), w') ->
  (exists key, transactions (db w') !! key = Some r) /\
  (tx_nextRecurringDate r <> None <->
   d_isRecurring data = true /\ truthy (d_recurringInterval data) = true).
Proof.
  intros [Hrun|Hrun].
  - destruct (createTransaction_cases env data w)
      as [(user & account & Hok & Hc)|(msg & Hc)];
      rewrite Hc in Hrun; [|discriminate].
    injection Hrun as <- <-. split.
    + exists (uuid env 0). cbn [created_world db transactions].
      apply lookup_insert_eq.
    + apply nextRecurringDate_of_iff.
  - destruct (updateTransaction_cases env id data w)
      as [(user & original & account & Hok & Hc)|(msg & Hc)];
      rewrite Hc in Hrun; [|discriminate].
    injection Hrun as <- <-. split.
    + exists id. cbn [updated_world db transactions].
      apply lookup_insert_eq.
    + apply nextRecurringDate_of_iff.
Qed.

Lemma nextRecurringDate_iff_recurring_witness :
  (exists key,
      transactions
        (db (created_world Sample.env Sample.monthly_expense Sample.alice
                           Sample.checking Sample.world)) !! key
      = Some (created_row (uuid Sample.env 0) Sample.monthly_expense
                          Sample.alice)) /\
  (tx_nextRecurringDate
     (created_row (uuid Sample.env 0) Sample.monthly_expense Sample.alice)
   <> None <->
   d_isRecurring Sample.monthly_expense = true /\
   truthy (d_recurringInterval Sample.monthly_expense) = true).
Proof.
  apply (nextRecurringDate_iff_recurring Sample.env "tx-rent"
           Sample.monthly_expense Sample.world).
  left. vm_compute. reflexivity.
Defined.

(** C6: for a caller that is a known user, an id of a transaction owned by
    somebody else and an id that does not exist are answered alike:
    getTransaction throws "Transaction not found", updateTransaction reports
    the failure "Transaction not found", and the world is left as it was. *)
Theorem foreign_transaction_not_found env id data w userId user :
  auth_userId env = Some userId -> userId <> "" ->
  user_findFirst userId (db w) = Some user ->
  transactions (db w) !! id = None
  \/ (exists t, transactions (db w) !! id = Some t /\ tx_userId t <> user_id user) ->
  getTransaction env id w = (Throw "Transaction not found", w) /\
  updateTransaction env id data w = (Return (Failure "Transaction not found"), w).
Proof.
  intros Hauth Hne Huser Hid.
  assert (Hfind : transaction_findFirst id (user_id user) (db w) = None).
  { unfold transaction_findFirst.
    destruct Hid as [-> | (t & -> & Hother)]; [done|].
    by destruct (String.eqb_spec (tx_userId t) (user_id user)). }
  assert (Ha : authenticate env w = (Return userId, w)).
  { destruct (authenticate_cases env w) as [(u & Hu & _ & Ha)|Ha].
    - congruence.
    - unfold authenticate, truthy in Ha. rewrite Hauth in Ha.
      by destruct (String.eqb_spec userId ""). }
  assert (Hr : resolve_user userId w = (Return user, w)).
  { unfold resolve_user, bind, read. by rewrite Huser. }
  split.
  - unfold getTransaction, getTransaction_body.
    erewrite try_catch_Throw; [reflexivity|].
    step_Return Ha. step_Return Hr.
    rewrite (bind_Return _ _ _ _ _ (read_Return _ w)). by rewrite Hfind.
  - unfold updateTransaction, updateTransaction_body.
    erewrite try_catch_Throw; [reflexivity|].
    step_Return Ha. step_Return Hr.
    rewrite (bind_Return _ _ _ _ _ (read_Return _ w)). by rewrite Hfind.
Qed.

Lemma foreign_transaction_not_found_witness :
  getTransaction Sample.env "tx-lunch" Sample.world
  = (Throw "Transaction not found", Sample.world) /\
  updateTransaction Sample.env "tx-lunch" Sample.raised_rent Sample.world
  = (Return (Failure "Transaction not found"), Sample.world).
Proof.
  apply (foreign_transaction_not_found Sample.env "tx-lunch" Sample.raised_rent
           Sample.world "clerk_alice" Sample.alice).
  - reflexivity.
  - discriminate.
  - reflexivity.
  - right. exists Sample.bobs_lunch. split; [reflexivity|discriminate].
Defined.

(** ** The failure boundary *)

Lemma getUserTransactions_body_cases env query w :
  (exists rows, getUserTransactions_body env query w = (Return (Success rows), w))
  \/ (exists msg, getUserTransactions_body env query w = (Throw msg, w)).
Proof.
  unfold getUserTransactions_body.
  destruct (authenticate_cases env w) as [(userId & Hauth & Hne & Ha)|Ha];
    [step_Return Ha|stop_Throw Ha].
  destruct (resolve_user_cases userId w) as [(user & Huser & Hr)|[_ Hr]];
    [step_Return Hr|stop_Throw Hr].
  rewrite (bind_Return _ _ _ _ _ (read_Return _ w)).
  left. eexists. reflexivity.
Qed.

(** C7, as stated, fails on getUserTransactions: without a session its body
    throws "Unauthorized", and the action does not raise it but returns the
    failure result. *)
Lemma getUserTransactions_returns_failure :
  getUserTransactions_body Sample.anonymous Sample.any_query Sample.world
  = (Throw "Unauthorized", Sample.world) /\
  getUserTransactions Sample.anonymous Sample.any_query Sample.world
  = (Return (Failure "Unauthorized"), Sample.world).
Proof. split; reflexivity. Qed.

(** C7, amended: createTransaction, updateTransaction and getUserTransactions
    never raise, every failure of their body comes back as the result
    [{ success: false, error: message }] with the message of the error;
    getTransaction alone re-raises what its body throws. *)
Theorem failure_boundaries env id data query w :
  (exists res w', createTransaction env data w = (Return res, w')) /\
  (exists res w', updateTransaction env id data w = (Return res, w')) /\
  (exists res w', getUserTransactions env query w = (Return res, w')) /\
  (forall msg w',
      createTransaction_body env data w = (Throw msg, w') ->
      createTransaction env data w = (Return (Failure msg), w')) /\
  (forall msg w',
      updateTransaction_body env id data w = (Throw msg, w') ->
      updateTransaction env id data w = (Return (Failure msg), w')) /\
  (forall msg w',
      getUserTransactions_body env query w = (Throw msg, w') ->
      getUserTransactions env query w = (Return (Failure msg), w')) /\
  (forall msg w',
      getTransaction_body env id w = (Throw msg, w') ->
      getTransaction env id w = (Throw msg, w')).
Proof.
  repeat split.
  - destruct (createTransaction_cases env data w)
      as [(user & account & _ & Hc)|(msg & Hc)]; rewrite Hc; by eexists _, _.
  - destruct (updateTransaction_cases env id data w)
      as [(user & original & account & _ & Hc)|(msg & Hc)];
      rewrite Hc; by eexists _, _.
  - unfold getUserTransactions.
    destruct (getUserTransactions_body_cases env query w)
      as [(rows & Hb)|(msg & Hb)].
    + rewrite (try_catch_Return _ _ _ _ _ Hb). by eexists _, _.
    + rewrite (try_catch_Throw _ _ _ _ _ Hb). by eexists _, _.
  - intros msg w' Hb. unfold createTransaction.
    by rewrite (try_catch_Throw _ _ _ _ _ Hb).
  - intros msg w' Hb. unfold updateTransaction.
    by rewrite (try_catch_Throw _ _ _ _ _ Hb).
  - intros msg w' Hb. unfold getUserTransactions.
    by rewrite (try_catch_Throw _ _ _ _ _ Hb).
  - intros msg w' Hb. unfold getTransaction.
    by rewrite (try_catch_Throw _ _ _ _ _ Hb).
Qed.

(** ** The frame of updateTransaction *)



(** ** The receipt adapter *)

Section ReceiptFailures.

Variable generateContent : Receipt.File -> Outcome string.
Variable JSON_parse : string -> option Receipt.JSON.
Variable parseFloat : option Receipt.JSON -> option Z.
Variable new_Date : option Receipt.JSON -> JSDate.t.

Lemma parse_receipt_cases text w :
  (exists r, Receipt.parse_receipt JSON_parse parseFloat new_Date text w
             = (Return r, w))
  \/ (exists msg, Receipt.parse_receipt JSON_parse parseFloat new_Date text w
                  = (Throw msg, w)).
Proof.
  unfold Receipt.parse_receipt.
  destruct (JSON_parse text) as [data|]; [|right; eexists; reflexivity].
  destruct data; try (right; eexists; reflexivity); left; eexists; reflexivity.
Qed.

(** The only error scanReceipt can raise is "Failed to process receipt". *)
Lemma scanReceipt_cases file w :
  (exists r, Receipt.scanReceipt generateContent JSON_parse parseFloat new_Date
               file w = (Return r, w))
  \/ Receipt.scanReceipt generateContent JSON_parse parseFloat new_Date file w
     = (Throw "Failed to process receipt", w).
Proof.
  unfold Receipt.scanReceipt.
  destruct (generateContent file) as [text|msg].
  - destruct (parse_receipt_cases (Receipt.cleanText text) w)
      as [(r & Hp)|(msg & Hp)].
    + left. exists r. apply try_catch_Return.
      rewrite (bind_Return _ _ w text w eq_refl). by apply try_catch_Return.
    + right. erewrite try_catch_Throw; [reflexivity|].
      rewrite (bind_Return _ _ w text w eq_refl).
      erewrite try_catch_Throw; [reflexivity|exact Hp].
  - right. erewrite try_catch_Throw; [reflexivity|].
    apply (bind_Throw _ _ w msg w eq_refl).
Qed.

(** The inner handler does throw "Invalid receipt format" on text that does
    not parse. *)
Lemma inner_handler_throws_invalid_format text w :
  JSON_parse text = None ->
  try_catch (Receipt.parse_receipt JSON_parse parseFloat new_Date text)
            (fun _ => throw "Invalid receipt format") w
  = (Throw "Invalid receipt format", w).
Proof.
  intros Hparse. erewrite try_catch_Throw; [reflexivity|].
  unfold Receipt.parse_receipt. by rewrite Hparse.
Qed.

(** C8 does not hold: when the text of the model, fences stripped, does
    not parse, the inner handler throws "Invalid receipt format", but the
    throw happens inside the outer [try], whose handler replaces it by
    "Failed to process receipt": the same error as for a failure of the
    model call. *)
Theorem scanReceipt_invalid_format_is_masked file w :
  (exists text, generateContent file = Return text /\
                JSON_parse (Receipt.cleanText text) = None)
  \/ (exists msg, generateContent file = Throw msg) ->
  Receipt.scanReceipt generateContent JSON_parse parseFloat new_Date file w
  = (Throw "Failed to process receipt", w).
Proof.
  unfold Receipt.scanReceipt.
  intros [(text & -> & Hparse)|(msg & ->)].
  - erewrite try_catch_Throw; [reflexivity|].
    rewrite (bind_Return _ _ w text w eq_refl).
    erewrite try_catch_Throw; [reflexivity|].
    unfold Receipt.parse_receipt. rewrite Hparse. reflexivity.
  - erewrite try_catch_Throw; [reflexivity|].
    apply (bind_Throw _ _ w msg w eq_refl).
Qed.

End ReceiptFailures.

Lemma scanReceipt_invalid_format_is_masked_witness :
  Receipt.scanReceipt Sample.fenced_garbage Sample.rejects_garbage
    (fun _ => None) (fun _ => None) Sample.receipt_image Sample.world
  = (Throw "Failed to process receipt", Sample.world).
Proof.
  apply (scanReceipt_invalid_format_is_masked Sample.fenced_garbage
           Sample.rejects_garbage (fun _ => None) (fun _ => None)
           Sample.receipt_image Sample.world).
  left. exists (Sample.garbage_text). split; [reflexivity|].
  vm_compute. reflexivity.
Defined.

(** ** The seeder *)

Lemma net_delta_app l1 l2 : net_delta (l1 ++ l2)%list = net_delta l1 + net_delta l2.
Proof.
  unfold net_delta. induction l1 as [|t l1 IH]; cbn [foldr app]; lia.
Qed.

Lemma random_range env k : 0 <= Seed.random env k < Seed.two53.
Proof. unfold Seed.random, Seed.two53. apply Z.mod_pos_bound. lia. Qed.

Lemma floor_times_range m n :
  0 <= m < Seed.two53 -> 0 < n -> 0 <= Seed.floor_times m n < n.
Proof.
  unfold Seed.floor_times, Seed.two53. intros Hm Hn. split.
  - apply Z.div_pos; nia.
  - apply Z.div_lt_upper_bound; nia.
Qed.

Lemma getRandomAmount_nonneg m min max :
  0 <= m -> 0 <= min <= max -> 0 <= Seed.getRandomAmount m min max.
Proof.
  unfold Seed.getRandomAmount, Seed.two53. intros Hm Hr.
  assert (0 <= (2 * 100 * m * (max - min) + 9007199254740992)
               / (2 * 9007199254740992)) by (apply Z.div_pos; nia).
  lia.
Qed.

Lemma CATEGORIES_ranges type :
  Forall (fun c => 0 <= Seed.cat_min c <= Seed.cat_max c) (Seed.CATEGORIES type).
Proof.
  unfold Seed.CATEGORIES.
  destruct (String.eqb type "INCOME"); [|destruct (String.eqb type "EXPENSE")];
    repeat constructor; cbn; lia.
Qed.

Lemma getRandomCategory_amount_nonneg env type k :
  0 <= snd (Seed.getRandomCategory env type k).
Proof.
  unfold Seed.getRandomCategory. cbn [snd].
  apply getRandomAmount_nonneg; [apply random_range|].
  set (n := Z.to_nat _). generalize n. clear n.
  pose proof (CATEGORIES_ranges type) as Hall.
  induction Hall as [|c l Hc Hl IH]; intros [|n]; cbn [nth Seed.cat_min Seed.cat_max];
    try lia; try done.
Qed.

(** One pass of the inner loop pushes one row of the target account, dated
    [date], and adds its signed amount to the running sum. *)
Lemma push_transaction_spec env date g :
  exists row,
    Seed.g_transactions (Seed.push_transaction env date g)
    = (Seed.g_transactions g ++ [row])%list /\
    tx_date row = date /\ tx_accountId row = Seed.ACCOUNT_ID /\
    Seed.g_balanceChange (Seed.push_transaction env date g)
    = Seed.g_balanceChange g + signed_amount row.
Proof.
  unfold Seed.push_transaction.
  pose proof (getRandomCategory_amount_nonneg env
                (if 5 * Seed.random env (Seed.g_draws g) <? 2 * Seed.two53
                 then "INCOME" else "EXPENSE") (S (Seed.g_draws g))) as Hpos.
  destruct (Seed.getRandomCategory env _ _) as [category amount].
  cbn [snd] in Hpos.
  eexists. split; [reflexivity|]. split; [reflexivity|]. split; [reflexivity|].
  cbn [Seed.g_balanceChange]. f_equal.
  unfold signed_amount, balanceChange_of. cbn [tx_type tx_amount].
  destruct (5 * Seed.random env (Seed.g_draws g) <? 2 * Seed.two53);
    cbn [String.eqb Ascii.eqb Bool.eqb]; lia.
Qed.

Lemma day_loop_spec env date n g :
  exists new,
    Seed.g_transactions (Seed.day_loop env date n g)
    = (Seed.g_transactions g ++ new)%list /\
    length new = n /\
    Forall (fun row => tx_date row = date /\ tx_accountId row = Seed.ACCOUNT_ID)
           new /\
    Seed.g_balanceChange (Seed.day_loop env date n g)
    = Seed.g_balanceChange g + net_delta new.
Proof.
  revert g. induction n as [|n IH]; intros g; cbn [Seed.day_loop].
  - exists []. rewrite app_nil_r. repeat split; [constructor|cbn; lia].
  - destruct (push_transaction_spec env date g) as (row & Ht & Hd & Ha & Hb).
    destruct (IH (Seed.push_transaction env date g)) as (new & Ht' & Hn & Hall & Hb').
    exists (row :: new). rewrite Ht', Ht, <- app_assoc. split; [done|].
    split; [cbn; lia|]. split; [by constructor|].
    rewrite Hb', Hb. cbn [net_delta foldr]. unfold net_delta. lia.
Qed.

Lemma on_day_all date rows :
  Forall (fun row => tx_date row = date) rows -> on_day date rows = rows.
Proof.
  unfold on_day. induction 1 as [|row rows Hrow _ IH]; [done|].
  rewrite filter_cons_True by done. by rewrite IH.
Qed.

Lemma on_day_none date rows :
  Forall (fun row => tx_date row <> date) rows -> on_day date rows = [].
Proof.
  unfold on_day. induction 1 as [|row rows Hrow _ IH]; [done|].
  by rewrite filter_cons_False.
Qed.

Lemma on_day_app date l1 l2 :
  on_day date (l1 ++ l2)%list = (on_day date l1 ++ on_day date l2)%list.
Proof. apply filter_app. Qed.

Lemma transactionsPerDay_range env k :
  (1 <= Z.to_nat (Seed.floor_times (Seed.random env k) 3 + 1) <= 3)%nat.
Proof.
  pose proof (floor_times_range (Seed.random env k) 3 (random_range env k)).
  lia.
Qed.

(** The outer loop with [n] days left: every one of the days [n-1 .. 0] gets
    between one and three rows, all of the target account, and the running
    sum grows by the net delta of what was pushed. *)
Lemma days_loop_spec env n g :
  (forall i j, (i < n)%nat -> (j < n)%nat ->
               seed_date env i = seed_date env j -> i = j) ->
  exists new,
    Seed.g_transactions (Seed.days_loop env n g)
    = (Seed.g_transactions g ++ new)%list /\
    (forall i, (i < n)%nat ->
               (1 <= length (on_day (seed_date env i) new) <= 3)%nat) /\
    Forall (fun row => (exists i, (i < n)%nat /\ tx_date row = seed_date env i)
                       /\ tx_accountId row = Seed.ACCOUNT_ID) new /\
    Seed.g_balanceChange (Seed.days_loop env n g)
    = Seed.g_balanceChange g + net_delta new.
Proof.
  revert g. induction n as [|n IH]; intros g Hinj; cbn [Seed.days_loop].
  - exists []. rewrite app_nil_r. repeat split; [lia|lia|constructor|cbn; lia].
  - fold (seed_date env n).
    set (g1 := {| Seed.g_transactions := Seed.g_transactions g;
                  Seed.g_balanceChange := Seed.g_balanceChange g;
                  Seed.g_draws := S (Seed.g_draws g) |}).
    set (tpd := Z.to_nat _).
    assert (Htpd : (1 <= tpd <= 3)%nat) by apply transactionsPerDay_range.
    destruct (day_loop_spec env (seed_date env n) tpd g1)
      as (chunk & Ht & Hlen & Hchunk & Hb).
    destruct (IH (Seed.day_loop env (seed_date env n) tpd g1))
      as (rest & Ht' & Hdays & Hrest & Hb').
    { intros i j Hi Hj. apply Hinj; lia. }
    exists (chunk ++ rest)%list.
    rewrite Ht', Ht, <- app_assoc. split; [done|]. split; [|split].
    + intros i Hi. rewrite on_day_app, length_app.
      destruct (decide (i = n)) as [->|Hne].
      * rewrite on_day_all by (eapply Forall_impl; [exact Hchunk|]; by intros ? []).
        rewrite on_day_none; [cbn [length]; lia|].
        eapply Forall_impl; [exact Hrest|].
        intros row [(j & Hj & ->) _] Heq. apply Hinj in Heq; lia.
      * rewrite on_day_none; [apply Hdays; lia|].
        eapply Forall_impl; [exact Hchunk|].
        intros row [-> _] Heq. apply Hinj in Heq; lia.
    + apply Forall_app. split.
      * eapply Forall_impl; [exact Hchunk|].
        intros row [Hd Ha]. split; [|done]. exists n. split; [lia|done].
      * eapply Forall_impl; [exact Hrest|].
        intros row [(j & Hj & Hd) Ha]. split; [|done]. exists j. split; [lia|done].
    + rewrite Hb', Hb, net_delta_app. cbn [g1 Seed.g_balanceChange]. lia.
Qed.

Lemma seed_date_in_range env i :
  - JSDate.maxTime + 90 * JSDate.msPerDay <= now env <= JSDate.maxTime ->
  (i <= 90)%nat ->
  seed_date env i = Some (now env - Z.of_nat i * JSDate.msPerDay).
Proof.
  intros Hnow Hi. unfold seed_date, Seed.subDays, Seed.new_Date.
  assert (Hclip : forall tv, - JSDate.maxTime <= tv <= JSDate.maxTime ->
                             JSDate.TimeClip tv = Some tv).
  { intros tv Htv. unfold JSDate.TimeClip.
    destruct (Z.leb_spec (Z.abs tv) JSDate.maxTime); [done|lia]. }
  unfold JSDate.msPerDay, JSDate.maxTime in *.
  rewrite Hclip by lia.
  destruct (Z.eqb_spec (Z.of_nat i) 0) as [->|Hne]; [f_equal; lia|].
  rewrite setDate_getDate_plus. unfold JSDate.msPerDay.
  rewrite Hclip by lia. f_equal. lia.
Qed.

Lemma seed_date_injective env i j :
  - JSDate.maxTime + 90 * JSDate.msPerDay <= now env <= JSDate.maxTime ->
  (i < 91)%nat -> (j < 91)%nat -> seed_date env i = seed_date env j -> i = j.
Proof.
  intros Hnow Hi Hj. rewrite !seed_date_in_range by (done || lia).
  unfold JSDate.msPerDay. intros [=]. lia.
Qed.

(** A bulk insert that returns added exactly its rows, under the generated
    ids, which were free and pairwise different. *)
Lemma insert_rows_Return gen rows : forall k m m',
  Seed.insert_rows gen k rows m = Return m' ->
  (forall id t,
      m' !! id = Some t <->
      (exists j row, rows !! j = Some row /\ id = gen (k + j)%nat /\
                     t = Seed.with_id id row)
      \/ m !! id = Some t) /\
  (forall j, (j < length rows)%nat -> m !! gen (k + j)%nat = None) /\
  (forall i j, (i < length rows)%nat -> (j < length rows)%nat ->
               gen (k + i)%nat = gen (k + j)%nat -> i = j).
Proof.
  induction rows as [|row rows IH]; intros k m m'; cbn [Seed.insert_rows].
  - intros [= <-]. split; [|split].
    + intros id t. split; [by right|]. intros [(j & r & Hj & _)|H]; [|done].
      by rewrite lookup_nil in Hj.
    + cbn [length]. lia.
    + cbn [length]. lia.
  - destruct (m !! gen k) eqn:Hfree; [done|]. intros Hrun.
    destruct (IH _ _ _ Hrun) as (Hlook & Hfresh & Hinj).
    assert (Hfresh' : forall j, (j < length rows)%nat ->
                                gen (S k + j)%nat <> gen k /\
                                m !! gen (S k + j)%nat = None).
    { intros j Hj. specialize (Hfresh j Hj).
      apply lookup_insert_None in Hfresh as [? ?]. by split. }
    split; [|split].
    + intros id t. rewrite Hlook. split.
      * intros [(j & r & Hj & -> & ->)|Hins].
        -- left. exists (S j), r. rewrite Nat.add_succ_r. by repeat split.
        -- apply lookup_insert_Some in Hins as [[<- <-]|[Hne Hm]].
           ++ left. exists 0%nat, row. rewrite Nat.add_0_r. by repeat split.
           ++ by right.
      * intros [(j & r & Hj & -> & ->)|Hm].
        -- destruct j as [|j]; cbn [lookup list_lookup] in Hj.
           ++ injection Hj as <-. right. rewrite Nat.add_0_r.
              apply lookup_insert_eq.
           ++ left. exists j, r. rewrite Nat.add_succ_r. by repeat split.
        -- right. rewrite lookup_insert_ne; [done|]. congruence.
    + intros [|j] Hj; [by rewrite Nat.add_0_r|].
      rewrite Nat.add_succ_r. apply Hfresh'. cbn [length] in Hj. lia.
    + intros [|i] [|j] Hi Hj; cbn [length] in Hi, Hj;
        rewrite ?Nat.add_0_r, ?Nat.add_succ_r; intros Heq.
      * done.
      * destruct (Hfresh' j) as [Hne _]; [lia|]. cbn in Hne. congruence.
      * destruct (Hfresh' i) as [Hne _]; [lia|]. cbn in Hne. congruence.
      * f_equal. apply Hinj; [lia..|]. done.
Qed.

Lemma dollar_transaction3_cases {A B C} env
    (s1 : Stmt A) (s2 : Stmt B) (s3 : Stmt C) w :
  (exists a b c d1 d2 d3,
      s1 (db w) = Return (a, d1) /\ s2 d1 = Return (b, d2) /\
      s3 d2 = Return (c, d3) /\
      dollar_transaction3 env s1 s2 s3 w =
        (Return (a, (b, c)), {| db := d3; revalidated := revalidated w |}))
  \/ (exists msg, dollar_transaction3 env s1 s2 s3 w = (Throw msg, w)).
Proof.
  unfold dollar_transaction3, atomically, stmt_then, attempt.
  destruct (stmt_fault env 0%nat) as [m0|] eqn:Hf0;
    [right; eexists; reflexivity|].
  destruct (s1 (db w)) as [[a d1]|m] eqn:H1; [|right; eexists; reflexivity].
  destruct (stmt_fault env 1%nat) as [m1|] eqn:Hf1;
    [right; eexists; reflexivity|].
  destruct (s2 d1) as [[b d2]|m] eqn:H2; [|right; eexists; reflexivity].
  destruct (stmt_fault env 2%nat) as [m2|] eqn:Hf2;
    [right; eexists; reflexivity|].
  destruct (s3 d2) as [[c d3]|m] eqn:H3; [|right; eexists; reflexivity].
  left. exists a, b, c, d1, d2, d3. repeat split; done.
Qed.

(** What the generator leaves in its variables after [n] days, started from
    the empty array and the sum zero. *)
Lemma days_loop_from_empty env n :
  - JSDate.maxTime + 90 * JSDate.msPerDay <= now env <= JSDate.maxTime ->
  (n <= 91)%nat ->
  let g := Seed.days_loop env n
             {| Seed.g_transactions := []; Seed.g_balanceChange := 0;
                Seed.g_draws := 0 |} in
  (forall i, (i < n)%nat ->
     (1 <= length (on_day (Some (now env - Z.of_nat i * JSDate.msPerDay)%Z)
                          (Seed.g_transactions g)) <= 3)%nat) /\
  Forall (fun row => tx_accountId row = Seed.ACCOUNT_ID /\
                     exists i, (i < n)%nat /\
                               tx_date row
                               = Some (now env - Z.of_nat i * JSDate.msPerDay))
         (Seed.g_transactions g) /\
  Seed.g_balanceChange g = net_delta (Seed.g_transactions g).
Proof.
  intros Hnow Hn g.
  destruct (days_loop_spec env n
              {| Seed.g_transactions := []; Seed.g_balanceChange := 0;
                 Seed.g_draws := 0 |})
    as (new & Hnew & Hdays & Hrows & Hsum).
  { intros i j Hi Hj. apply seed_date_injective; [done|lia..]. }
  fold g in Hnew, Hsum. cbn [Seed.g_transactions Seed.g_balanceChange] in Hnew, Hsum.
  clearbody g. rewrite app_nil_l in Hnew. subst new.
  split; [|split].
  - intros i Hi. rewrite <- (seed_date_in_range env i Hnow) by lia.
    by apply Hdays.
  - eapply Forall_impl; [exact Hrows|].
    intros row [(i & Hi & Hd) Ha]. split; [done|]. exists i. split; [lia|].
    rewrite Hd. apply seed_date_in_range; [done|lia].
  - lia.
Qed.

Lemma transaction_deleteMany_Return accountId d n d' :
  Seed.transaction_deleteMany accountId d = Return (n, d') ->
  d' = with_transactions d
         (filter (fun kv : string * Transaction => tx_accountId (snd kv) <> accountId)
                 (transactions d)).
Proof. unfold Seed.transaction_deleteMany. by intros [= <- <-]. Qed.

Lemma transaction_createMany_Return env data d n d' :
  Seed.transaction_createMany env data d = Return (n, d') ->
  exists m', Seed.insert_rows (uuid env) 0 data (transactions d) = Return m' /\
             n = length data /\ d' = with_transactions d m'.
Proof.
  unfold Seed.transaction_createMany.
  destruct (Seed.insert_rows _ _ _ _) as [m'|]; [|done].
  intros [= <- <-]. by exists m'.
Qed.

Lemma generate_spec env :
  - JSDate.maxTime + 90 * JSDate.msPerDay <= now env <= JSDate.maxTime ->
  (forall i, (i < 91)%nat ->
     (1 <= length (on_day (Some (now env - Z.of_nat i * JSDate.msPerDay)%Z)
                          (Seed.g_transactions (Seed.generate env))) <= 3)%nat) /\
  Forall (fun row => tx_accountId row = Seed.ACCOUNT_ID /\
                     exists i, (i < 91)%nat /\
                               tx_date row
                               = Some (now env - Z.of_nat i * JSDate.msPerDay))
         (Seed.g_transactions (Seed.generate env)) /\
  Seed.g_balanceChange (Seed.generate env)
  = net_delta (Seed.g_transactions (Seed.generate env)).
Proof.
  intros Hnow. unfold Seed.generate.
  apply (days_loop_from_empty env 91 Hnow). lia.
Qed.

(** The world after a committed run of the seeder that inserted into [m']. *)
Lemma seedTransactions_body_cases env w :
  (exists account m',
      account_findFirst Seed.ACCOUNT_ID Seed.USER_ID (db w) = Some account /\
      Seed.insert_rows (uuid env) 0 (Seed.g_transactions (Seed.generate env))
        (filter (fun kv : string * Transaction =>
                   tx_accountId (snd kv) <> Seed.ACCOUNT_ID)
                (transactions (db w)))
      = Return m' /\
      Seed.seedTransactions_body env w =
        (Return (Success
                   (length (Seed.g_transactions (Seed.generate env)),
                    balance account + Seed.g_balanceChange (Seed.generate env))),
         {| db :=
              {| users := users (db w);
                 accounts :=
                   <[Seed.ACCOUNT_ID :=
                       Seed.set_balance_updatedAt
                         (balance account
                          + Seed.g_balanceChange (Seed.generate env))
                         (Seed.new_Date env) account]> (accounts (db w));
                 transactions := m' |};
            revalidated := revalidated w |}))
  \/ (exists msg, Seed.seedTransactions_body env w = (Throw msg, w)).
Proof.
  unfold Seed.seedTransactions_body.
  set (g := Seed.generate env). clearbody g.
  set (target := Seed.ACCOUNT_ID). clearbody target.
  rewrite (bind_Return _ _ _ _ _ (read_Return _ w)).
  destruct (account_findFirst target Seed.USER_ID (db w))
    as [account|] eqn:Hacc; [|right; eexists; reflexivity].
  match goal with |- context [bind (dollar_transaction3 env ?s1 ?s2 ?s3)] =>
    destruct (dollar_transaction3_cases env s1 s2 s3 w)
      as [(c1 & c2 & a' & d1 & d2 & d3 & H1 & H2 & H3 & Ht)|(msg & Ht)]
  end; [step_Return Ht|stop_Throw Ht].
  apply transaction_deleteMany_Return in H1 as ->.
  apply transaction_createMany_Return in H2 as (m' & Hins & -> & ->).
  cbn [transactions with_transactions] in Hins.
  apply account_update_Return in H3 as (a0 & Ha0 & -> & ->).
  cbn [accounts with_transactions] in Ha0.
  apply account_findFirst_lookup in Hacc as Hlk.
  assert (a0 = account) as -> by congruence.
  left. exists account, m'. split; [done|]. split; [done|]. reflexivity.
Qed.




(** * Further properties of the code *)

(** ** More on the recurring-date calculator *)

Lemma calculateNextRecurringDate_monthly_valid_witness :
  exists tv',
    calculateNextRecurringDate (Some 1705312800000) "MONTHLY"
    = JSDate.TimeClip tv' /\
    JSDate.MonthFromTime tv' = 1 /\ JSDate.DateFromTime tv' = 15.
Proof.
  destruct (calculateNextRecurringDate_monthly_valid 1705312800000)
    as (tv' & Hnext & _ & Hm & Hd & _).
  - vm_compute. discriminate.
  - exists tv'. split; [exact Hnext|]. split.
    + rewrite Hm. vm_compute. reflexivity.
    + rewrite Hd. vm_compute. reflexivity.
Defined.

Lemma calculateNextRecurringDate_yearly_valid_witness :
  exists tv',
    calculateNextRecurringDate (Some 1705312800000) "YEARLY"
    = JSDate.TimeClip tv' /\
    JSDate.YearFromTime tv' = 2025 /\ JSDate.MonthFromTime tv' = 0 /\
    JSDate.DateFromTime tv' = 15.
Proof.
  destruct (calculateNextRecurringDate_yearly_valid 1705312800000)
    as (tv' & Hnext & Hy & Hm & Hd & _).
  - vm_compute. discriminate.
  - exists tv'. split; [exact Hnext|]. split; [|split].
    + rewrite Hy. vm_compute. reflexivity.
    + rewrite Hm. vm_compute. reflexivity.
    + rewrite Hd. vm_compute. reflexivity.
Defined.

Lemma DateFromDay_le_month d :
  JSDate.DateFromDay d
  <= JSDate.daysInMonth (JSDate.MonthFromDay d)
                        (JSDate.InLeapYear (JSDate.YearFromDay d)).
Proof.
  pose proof (DayWithinYear_range d) as Hw.
  pose proof (InLeapYear_range (JSDate.YearFromDay d)) as Hl.
  unfold JSDate.DateFromDay, JSDate.MonthFromDay.
  repeat match goal with
         | |- context [Z.ltb ?a ?b] => destruct (Z.ltb_spec a b)
         end;
    cbv [JSDate.monthStart JSDate.daysInMonth Z.eqb Pos.eqb orb]; lia.
Qed.

Lemma monthStart_succ m leap :
  0 <= m <= 10 ->
  JSDate.monthStart (m + 1) leap
  = JSDate.monthStart m leap + JSDate.daysInMonth m leap.
Proof.
  intros Hm.
  assert (m = 0 \/ m = 1 \/ m = 2 \/ m = 3 \/ m = 4 \/ m = 5 \/ m = 6 \/ m = 7
          \/ m = 8 \/ m = 9 \/ m = 10) as Hcases by lia.
  unfold JSDate.monthStart, JSDate.daysInMonth.
  repeat destruct Hcases as [->|Hcases]; try subst m; simpl; lia.
Qed.

Lemma daysInMonth_cases m leap :
  0 <= m <= 11 -> 0 <= leap <= 1 ->
  28 <= JSDate.daysInMonth m leap <= 31 /\
  (JSDate.daysInMonth m leap < 31 ->
   m <= 10 /\ JSDate.daysInMonth (m + 1) leap = 31).
Proof.
  intros Hm Hl.
  assert (m = 0 \/ m = 1 \/ m = 2 \/ m = 3 \/ m = 4 \/ m = 5 \/ m = 6 \/ m = 7
          \/ m = 8 \/ m = 9 \/ m = 10 \/ m = 11) as Hcases by lia.
  unfold JSDate.daysInMonth.
  repeat destruct Hcases as [->|Hcases]; try subst m; simpl; lia.
Qed.

(** X4: MONTHLY from a day that the next month does not have does not stay
    in the next month: the surplus days are counted into the month after it
    (the 31st of January gives the 2nd or 3rd of March, the 31st of March the
    1st of May), at the same time of day. *)
Theorem calculateNextRecurringDate_monthly_overflow tv :
  let y := JSDate.YearFromTime tv in
  let m := JSDate.MonthFromTime tv in
  let d := JSDate.DateFromTime tv in
  let y' := y + (m + 1) / 12 in
  let m' := (m + 1) mod 12 in
  JSDate.daysInMonth m' (JSDate.InLeapYear y') < d ->
  exists tv',
    calculateNextRecurringDate (Some tv) "MONTHLY" = JSDate.TimeClip tv' /\
    JSDate.YearFromTime tv' = y' /\ JSDate.MonthFromTime tv' = m' + 1 /\
    JSDate.DateFromTime tv'
    = d - JSDate.daysInMonth m' (JSDate.InLeapYear y') /\
    JSDate.TimeWithinDay tv' = JSDate.TimeWithinDay tv.
Proof.
  intros y m d y' m' Hover.
  pose proof (MonthFromDay_range (JSDate.Day tv)) as Hm.
  pose proof (DateFromDay_le_month (JSDate.Day tv)) as Hd31.
  pose proof (InLeapYear_range y') as Hl'.
  pose proof (InLeapYear_range (JSDate.YearFromDay (JSDate.Day tv))) as Hl.
  assert (Hms : 0 <= JSDate.TimeWithinDay tv < JSDate.msPerDay).
  { unfold JSDate.TimeWithinDay, JSDate.msPerDay. apply Z.mod_pos_bound. lia. }
  exists (JSDate.MakeDate (JSDate.MakeDay y (m + 1) d) (JSDate.TimeWithinDay tv)).
  split; [reflexivity|].
  assert (Hm'r : 0 <= m' <= 11).
  { subst m'. pose proof (Z.mod_pos_bound (m + 1) 12). lia. }
  assert (HMD : JSDate.MakeDay y (m + 1) d = JSDate.MakeDay y' m' d).
  { unfold JSDate.MakeDay. subst y' m'.
    rewrite (Z.div_small ((m + 1) mod 12) 12), (Z.mod_small ((m + 1) mod 12) 12)
      by lia.
    by rewrite Z.add_0_r. }
  pose proof (daysInMonth_cases (JSDate.MonthFromDay (JSDate.Day tv)) _ Hm Hl)
    as [Hd31' _].
  assert (Hd : d <= 31) by (subst d; unfold JSDate.DateFromTime; lia).
  pose proof (daysInMonth_cases m' _ Hm'r Hl') as [Hlen' Hshort].
  set (len := JSDate.daysInMonth m' (JSDate.InLeapYear y')) in *.
  assert (Hlen : 28 <= len <= 30 /\ m' <= 10 /\
                 1 <= d - len <= JSDate.daysInMonth (m' + 1) (JSDate.InLeapYear y')).
  { destruct Hshort as [Hm10 ->]; lia. }
  destruct Hlen as (Hlen & Hm10 & Hrest).
  assert (HMD' : JSDate.MakeDay y' m' d = JSDate.MakeDay y' (m' + 1) (d - len)).
  { unfold JSDate.MakeDay.
    rewrite (Z.div_small m' 12), (Z.mod_small m' 12) by lia.
    rewrite (Z.div_small (m' + 1) 12), (Z.mod_small (m' + 1) 12) by lia.
    rewrite Z.add_0_r, monthStart_succ by lia. fold len. lia. }
  destruct (civil_of_MakeDay y' (m' + 1) (d - len)) as (Hy2 & Hm2 & Hd2);
    [lia|lia|].
  unfold JSDate.YearFromTime, JSDate.MonthFromTime, JSDate.DateFromTime.
  rewrite Day_MakeDate, TimeWithinDay_MakeDate, HMD, HMD' by done. done.
Qed.

Lemma calculateNextRecurringDate_monthly_overflow_witness :
  exists tv',
    calculateNextRecurringDate (Some 1711879200000) "MONTHLY"
    = JSDate.TimeClip tv' /\
    JSDate.MonthFromTime tv' = 4 /\ JSDate.DateFromTime tv' = 1.
Proof.
  destruct (calculateNextRecurringDate_monthly_overflow 1711879200000)
    as (tv' & Hnext & _ & Hm & Hd & _).
  - vm_compute. reflexivity.
  - exists tv'. split; [exact Hnext|]. split.
    + rewrite Hm. vm_compute. reflexivity.
    + rewrite Hd. vm_compute. reflexivity.
Defined.

(** X5: an interval that is none of the four names leaves the date as it is
    (the switch has no default), and this for every start date, the Invalid
    Date included. *)
Theorem calculateNextRecurringDate_unknown_interval startDate interval :
  interval <> "DAILY" -> interval <> "WEEKLY" ->
  interval <> "MONTHLY" -> interval <> "YEARLY" ->
  calculateNextRecurringDate startDate interval = startDate.
Proof.
  intros Hd Hw Hm Hy. unfold calculateNextRecurringDate, JSDate.copy.
  destruct (String.eqb_spec interval "DAILY"); [done|].
  destruct (String.eqb_spec interval "WEEKLY"); [done|].
  destruct (String.eqb_spec interval "MONTHLY"); [done|].
  destruct (String.eqb_spec interval "YEARLY"); [done|].
  reflexivity.
Qed.

Lemma calculateNextRecurringDate_unknown_interval_witness :
  calculateNextRecurringDate (JSDate.ofCivil 2024 0 31 0) "HOURLY"
  = JSDate.ofCivil 2024 0 31 0.
Proof.
  apply (calculateNextRecurringDate_unknown_interval
           (JSDate.ofCivil 2024 0 31 0) "HOURLY"); discriminate.
Defined.

Lemma daily_step tv :
  calculateNextRecurringDate (Some tv) "DAILY"
  = JSDate.TimeClip (tv + 1 * JSDate.msPerDay).
Proof.
  unfold calculateNextRecurringDate, JSDate.copy. cbn [String.eqb Ascii.eqb].
  apply setDate_getDate_plus.
Qed.

Lemma weekly_step tv :
  calculateNextRecurringDate (Some tv) "WEEKLY"
  = JSDate.TimeClip (tv + 7 * JSDate.msPerDay).
Proof.
  unfold calculateNextRecurringDate, JSDate.copy. cbn [String.eqb Ascii.eqb].
  apply setDate_getDate_plus.
Qed.

Lemma TimeClip_in_range tv :
  - JSDate.maxTime <= tv <= JSDate.maxTime -> JSDate.TimeClip tv = Some tv.
Proof.
  intros Htv. unfold JSDate.TimeClip.
  destruct (Z.leb_spec (Z.abs tv) JSDate.maxTime); [done|lia].
Qed.



(** ** More on the transaction actions *)

Lemma authenticate_Return env w userId :
  auth_userId env = Some userId -> userId <> "" ->
  authenticate env w = (Return userId, w).
Proof.
  intros Hauth Hne. unfold authenticate, truthy. rewrite Hauth.
  by destruct (String.eqb_spec userId "").
Qed.

Lemma authenticate_Throw env w :
  truthy (auth_userId env) = false ->
  authenticate env w = (Throw "Unauthorized", w).
Proof.
  unfold authenticate. destruct (auth_userId env) as [u|]; [|done].
  by intros ->.
Qed.

Lemma resolve_user_Return userId w user :
  user_findFirst userId (db w) = Some user ->
  resolve_user userId w = (Return user, w).
Proof. intros Huser. unfold resolve_user, bind, read. by rewrite Huser. Qed.

(** X7: without a session (no user id, or an empty one) every action stops
    at once with "Unauthorized": the three that catch report it as a failure,
    getTransaction throws it; the world is not touched. *)
Theorem unauthorized_everywhere env id data query w :
  truthy (auth_userId env) = false ->
  createTransaction env data w = (Return (Failure "Unauthorized"), w) /\
  updateTransaction env id data w = (Return (Failure "Unauthorized"), w) /\
  getUserTransactions env query w = (Return (Failure "Unauthorized"), w) /\
  getTransaction env id w = (Throw "Unauthorized", w).
Proof.
  intros Hanon. pose proof (authenticate_Throw env w Hanon) as Ha.
  repeat split.
  - unfold createTransaction, createTransaction_body.
    erewrite try_catch_Throw; [reflexivity|]. apply (bind_Throw _ _ _ _ _ Ha).
  - unfold updateTransaction, updateTransaction_body.
    erewrite try_catch_Throw; [reflexivity|]. apply (bind_Throw _ _ _ _ _ Ha).
  - unfold getUserTransactions, getUserTransactions_body.
    erewrite try_catch_Throw; [reflexivity|]. apply (bind_Throw _ _ _ _ _ Ha).
  - unfold getTransaction, getTransaction_body.
    erewrite try_catch_Throw; [reflexivity|]. apply (bind_Throw _ _ _ _ _ Ha).
Qed.

Lemma unauthorized_everywhere_witness :
  createTransaction Sample.anonymous Sample.monthly_expense Sample.world
  = (Return (Failure "Unauthorized"), Sample.world).
Proof.
  apply (unauthorized_everywhere Sample.anonymous "tx-rent"
           Sample.monthly_expense Sample.any_query Sample.world).
  reflexivity.
Defined.

(** X8: a request with a session that the rate limiter denies is refused
    before the database is consulted, whatever the database holds: with "Too
    many requests. Please try again later." when the reason is the rate
    limit, with "Request blocked" otherwise. *)
Theorem createTransaction_denied env data w userId :
  auth_userId env = Some userId -> userId <> "" ->
  isDenied (aj_protect env) = true ->
  createTransaction env data w
  = (Return (Failure (if isRateLimit (aj_protect env)
                      then "Too many requests. Please try again later."
                      else "Request blocked")), w).
Proof.
  intros Hauth Hne Hdenied.
  pose proof (authenticate_Return env w userId Hauth Hne) as Ha.
  unfold createTransaction, createTransaction_body.
  erewrite try_catch_Throw; [reflexivity|]. step_Return Ha.
  rewrite Hdenied. destruct (isRateLimit (aj_protect env)); reflexivity.
Qed.

Lemma createTransaction_denied_witness :
  createTransaction Sample2.rate_limited Sample.monthly_expense Sample.world
  = (Return (Failure "Too many requests. Please try again later."),
     Sample.world).
Proof.
  apply (createTransaction_denied Sample2.rate_limited Sample.monthly_expense
           Sample.world "clerk_alice"); [reflexivity|discriminate|reflexivity].
Defined.

(** X9: createTransaction on an account that does not exist or belongs to
    another user fails with "Account not found" in both cases, and writes
    nothing. *)
Theorem createTransaction_account_not_owned env data w userId user :
  auth_userId env = Some userId -> userId <> "" ->
  aj_protect env = Allowed ->
  user_findFirst userId (db w) = Some user ->
  accounts (db w) !! d_accountId data = None
  \/ (exists a, accounts (db w) !! d_accountId data = Some a /\
                account_userId a <> user_id user) ->
  createTransaction env data w = (Return (Failure "Account not found"), w).
Proof.
  intros Hauth Hne Hallowed Huser Hacc.
  pose proof (authenticate_Return env w userId Hauth Hne) as Ha.
  pose proof (resolve_user_Return userId w user Huser) as Hr.
  assert (Hfind : account_findFirst (d_accountId data) (user_id user) (db w)
                  = None).
  { unfold account_findFirst. destruct Hacc as [-> | (a & -> & Hother)]; [done|].
    by destruct (String.eqb_spec (account_userId a) (user_id user)). }
  unfold createTransaction, createTransaction_body.
  erewrite try_catch_Throw; [reflexivity|]. step_Return Ha.
  rewrite Hallowed. cbn [isDenied].
  rewrite (bind_Return _ _ w tt w eq_refl). step_Return Hr.
  rewrite (bind_Return _ _ _ _ _ (read_Return _ w)). by rewrite Hfind.
Qed.

Lemma createTransaction_account_not_owned_witness :
  createTransaction Sample.env Sample2.on_bobs_account Sample.world
  = (Return (Failure "Account not found"), Sample.world).
Proof.
  apply (createTransaction_account_not_owned Sample.env Sample2.on_bobs_account
           Sample.world "clerk_alice" Sample.alice).
  - reflexivity.
  - discriminate.
  - reflexivity.
  - reflexivity.
  - right. exists Sample.bobs. split; [reflexivity|discriminate].
Defined.

(** X10: the frame of a successful createTransaction: the new row goes to a
    key that was free, no other row and no other account changes, the users
    are as before, the account keeps everything but its balance, and the two
    view paths are invalidated, the dashboard first. *)
Theorem createTransaction_frame env data w r w' :
  createTransaction env data w = (Return (Success r), w') ->
  transactions (db w) !! tx_id r = None /\
  (forall k, k <> tx_id r ->
             transactions (db w') !! k = transactions (db w) !! k) /\
  (forall k, k <> d_accountId data ->
             accounts (db w') !! k = accounts (db w) !! k) /\
  (exists a, accounts (db w) !! d_accountId data = Some a /\
             accounts (db w') !! d_accountId data
             = Some (set_balance
                       (balance a + balanceChange_of (d_type data) (d_amount data))
                       a)) /\
  users (db w') = users (db w) /\
  revalidated w'
  = (("/account/" ++ d_accountId data)%string :: "/dashboard" :: revalidated w)%list.
Proof.
  intros Hrun.
  destruct (createTransaction_cases env data w)
    as [(user & account & Hok & Hc)|(msg & Hc)];
    rewrite Hc in Hrun; [|discriminate].
  injection Hrun as <- <-.
  destruct Hok as (userId & _ & _ & _ & _ & Hacc & Hfree & _).
  apply account_findFirst_lookup in Hacc.
  cbn [created_world db transactions accounts users revalidated created_row tx_id].
  split; [done|]. split; [|split; [|split; [|split]]].
  - intros k Hk. by apply lookup_insert_ne.
  - intros k Hk. by apply lookup_insert_ne.
  - exists account. split; [done|]. apply lookup_insert_eq.
  - reflexivity.
  - reflexivity.
Qed.

Lemma createTransaction_frame_witness :
  transactions (db Sample.world) !! uuid Sample.env 0 = None.
Proof.
  apply (createTransaction_frame Sample.env Sample.monthly_expense Sample.world
           (created_row (uuid Sample.env 0) Sample.monthly_expense Sample.alice)
           (created_world Sample.env Sample.monthly_expense Sample.alice
                          Sample.checking Sample.world)).
  vm_compute. reflexivity.
Defined.

(** X11: updateTransaction never looks at the owner of the submitted
    account.  Whenever the caller owns the transaction, the submitted
    account exists and no statement fails, the update succeeds and the
    balance of that account moves by the net delta, whoever owns it. *)
Theorem updateTransaction_ignores_account_owner
    env id data w userId user original account :
  auth_userId env = Some userId -> userId <> "" ->
  user_findFirst userId (db w) = Some user ->
  transaction_findFirst id (user_id user) (db w) = Some original ->
  accounts (db w) !! d_accountId data = Some account ->
  stmt_fault env 0%nat = None -> stmt_fault env 1%nat = None ->
  updateTransaction env id data w
  = (Return (Success (updated_row data original)),
     updated_world id data original account w) /\
  accounts (db (updated_world id data original account w)) !! d_accountId data
  = Some (increment_balance
            (balanceChange_of (d_type data) (d_amount data)
             - balanceChange_of (tx_type original) (tx_amount original))
            account).
Proof.
  intros Hauth Hne Huser Horig Hacc Hf0 Hf1. split.
  - pose proof (authenticate_Return env w userId Hauth Hne) as Ha.
    pose proof (resolve_user_Return userId w user Huser) as Hr.
    unfold updateTransaction, updateTransaction_body.
    erewrite try_catch_Return; [reflexivity|].
    step_Return Ha. step_Return Hr.
    rewrite (bind_Return _ _ _ _ _ (read_Return _ w)). rewrite Horig.
    erewrite bind_Return; cycle 1.
    { unfold dollar_transaction2, atomically, stmt_then, attempt.
      rewrite Hf0, Hf1. unfold transaction_update. rewrite Horig.
      unfold account_update. cbn [accounts with_transactions]. rewrite Hacc.
      reflexivity. }
    reflexivity.
  - cbn [updated_world db accounts]. apply lookup_insert_eq.
Qed.

Lemma updateTransaction_ignores_account_owner_witness :
  exists account',
    accounts
      (db (snd (updateTransaction Sample.env "tx-rent" Sample2.on_bobs_account
                                  Sample.world))) !! "acc-bob"
    = Some account' /\
    account_userId account' = "u-bob" /\ balance account' = 7000 + 8000.
Proof.
  destruct (updateTransaction_ignores_account_owner Sample.env "tx-rent"
              Sample2.on_bobs_account Sample.world "clerk_alice" Sample.alice
              Sample.rent Sample.bobs) as [Hrun Hlk];
    [reflexivity|discriminate|reflexivity..|].
  rewrite Hrun. cbn [snd]. eexists. split; [exact Hlk|].
  split; reflexivity.
Defined.



(** X13: an edit that keeps type and amount moves no money: after a
    successful updateTransaction that submits the stored type and amount, the
    account table is the one before. *)
Theorem updateTransaction_same_amount_keeps_balances env id data w r w' original :
  updateTransaction env id data w = (Return (Success r), w') ->
  transactions (db w) !! id = Some original ->
  d_type data = tx_type original -> d_amount data = tx_amount original ->
  accounts (db w') = accounts (db w).
Proof.
  intros Hrun Horig Htype Hamount.
  destruct (updateTransaction_cases env id data w)
    as [(user & original' & account & Hok & Hc)|(msg & Hc)];
    rewrite Hc in Hrun; [|discriminate].
  injection Hrun as <- <-.
  destruct Hok as (userId & _ & _ & _ & Hfind & Hacc & _).
  apply transaction_findFirst_lookup in Hfind as [Hfind _].
  assert (original' = original) as -> by congruence.
  cbn [updated_world db accounts]. apply insert_id. rewrite Hacc. f_equal.
  rewrite Htype, Hamount. destruct account.
  unfold increment_balance, set_balance. cbn. f_equal. lia.
Qed.

Lemma updateTransaction_same_amount_keeps_balances_witness :
  accounts
    (db (updated_world "tx-rent" Sample2.renamed_rent Sample.rent
                       Sample.checking Sample.world))
  = accounts (db Sample.world).
Proof.
  apply (updateTransaction_same_amount_keeps_balances Sample.env "tx-rent"
           Sample2.renamed_rent Sample.world
           (updated_row Sample2.renamed_rent Sample.rent)
           (updated_world "tx-rent" Sample2.renamed_rent Sample.rent
                          Sample.checking Sample.world)
           Sample.rent).
  - vm_compute. reflexivity.
  - reflexivity.
  - reflexivity.
  - reflexivity.
Defined.

(** X14: what createTransaction returns can be read back: after a success,
    getTransaction of the same caller with the id of the returned row returns
    that row. *)
Theorem getTransaction_after_createTransaction env data w r w' :
  createTransaction env data w = (Return (Success r), w') ->
  getTransaction env (tx_id r) w' = (Return r, w').
Proof.
  intros Hrun.
  destruct (createTransaction_cases env data w)
    as [(user & account & Hok & Hc)|(msg & Hc)];
    rewrite Hc in Hrun; [|discriminate].
  injection Hrun as <- <-.
  destruct Hok as (userId & Hauth & Hne & _ & Huser & _).
  set (w' := created_world env data user account w).
  pose proof (authenticate_Return env w' userId Hauth Hne) as Ha.
  pose proof (resolve_user_Return userId w' user Huser) as Hr.
  unfold getTransaction, getTransaction_body.
  erewrite try_catch_Return; [reflexivity|].
  step_Return Ha. step_Return Hr.
  rewrite (bind_Return _ _ _ _ _ (read_Return _ w')).
  unfold transaction_findFirst.
  cbn [w' created_world db transactions created_row tx_id].
  rewrite lookup_insert_eq. cbn [tx_userId].
  by rewrite String.eqb_refl.
Qed.

Lemma getTransaction_after_createTransaction_witness :
  getTransaction Sample.env (uuid Sample.env 0)
    (created_world Sample.env Sample.monthly_expense Sample.alice
                   Sample.checking Sample.world)
  = (Return (created_row (uuid Sample.env 0) Sample.monthly_expense Sample.alice),
     created_world Sample.env Sample.monthly_expense Sample.alice
                   Sample.checking Sample.world).
Proof.
  apply (getTransaction_after_createTransaction Sample.env
           Sample.monthly_expense Sample.world
           (created_row (uuid Sample.env 0) Sample.monthly_expense Sample.alice)).
  vm_compute. reflexivity.
Defined.

(** ** The ledger invariant under the mutations *)

Lemma ledger_sum_empty accountId : ledger_sum accountId ∅ = 0.
Proof. unfold ledger_sum. apply map_fold_empty. Qed.

Lemma ledger_sum_insert_fresh accountId (m : gmap string Transaction) k t :
  m !! k = None ->
  ledger_sum accountId (<[k := t]> m)
  = contribution accountId t + ledger_sum accountId m.
Proof.
  intros Hfree. unfold ledger_sum.
  rewrite map_fold_insert_L; [done| |done].
  intros. lia.
Qed.

Lemma ledger_sum_delete accountId (m : gmap string Transaction) k t :
  m !! k = Some t ->
  ledger_sum accountId m
  = contribution accountId t + ledger_sum accountId (delete k m).
Proof.
  intros Hk. unfold ledger_sum.
  rewrite (map_fold_delete_L _ _ k t m); [done| |done].
  intros. lia.
Qed.

Lemma ledger_sum_insert_over accountId (m : gmap string Transaction) k old t :
  m !! k = Some old ->
  ledger_sum accountId (<[k := t]> m)
  = ledger_sum accountId m - contribution accountId old
    + contribution accountId t.
Proof.
  intros Hk. rewrite <- insert_delete_eq.
  rewrite ledger_sum_insert_fresh by apply lookup_delete_eq.
  rewrite (ledger_sum_delete accountId m k old Hk). lia.
Qed.

Lemma ledger_sum_none accountId (m : gmap string Transaction) :
  (forall k t, m !! k = Some t -> contribution accountId t = 0) ->
  ledger_sum accountId m = 0.
Proof.
  induction m as [|k t m Hfree _ IH] using map_first_key_ind.
  - intros _. apply ledger_sum_empty.
  - intros Hall. rewrite ledger_sum_insert_fresh by done.
    rewrite (Hall k t) by apply lookup_insert_eq.
    rewrite IH; [done|]. intros k' t' Hk'. apply (Hall k').
    rewrite lookup_insert_ne; [done|]. congruence.
Qed.





(** ** The multi-transaction query *)

Lemma date_leb_total a b : date_leb a b = true \/ date_leb b a = true.
Proof.
  destruct a as [x|], b as [y|]; cbn; try (by left); try (by right).
  destruct (Z.leb_spec x y); [by left|right]. apply Z.leb_le. lia.
Qed.

Lemma date_leb_trans a b c :
  date_leb a b = true -> date_leb b c = true -> date_leb a c = true.
Proof.
  destruct a as [x|], b as [y|], c as [z|]; cbn; try done.
  rewrite !Z.leb_le. lia.
Qed.

Lemma elem_of_insert_desc x t l : x ∈ insert_desc t l <-> x = t \/ x ∈ l.
Proof.
  induction l as [|h r IH]; cbn [insert_desc].
  - rewrite elem_of_cons. tauto.
  - destruct (date_leb (tx_date h) (tx_date t)).
    + rewrite elem_of_cons. tauto.
    + rewrite !elem_of_cons, IH. tauto.
Qed.

Lemma elem_of_orderBy_date_desc x l : x ∈ orderBy_date_desc l <-> x ∈ l.
Proof.
  unfold orderBy_date_desc. induction l as [|h r IH]; cbn [foldr]; [done|].
  rewrite elem_of_insert_desc, IH, elem_of_cons. done.
Qed.

Lemma insert_desc_sorted t l :
  StronglySorted not_older l -> StronglySorted not_older (insert_desc t l).
Proof.
  induction l as [|h r IH]; cbn [insert_desc]; intros Hs.
  - repeat constructor.
  - apply StronglySorted_cons in Hs as [Hh Hr].
    destruct (date_leb (tx_date h) (tx_date t)) eqn:Hht.
    + apply StronglySorted_cons. split; [|by apply StronglySorted_cons].
      constructor; [exact Hht|].
      eapply Forall_impl; [exact Hh|]. intros x Hx. unfold not_older in *.
      by eapply date_leb_trans.
    + apply StronglySorted_cons. split; [|by apply IH].
      apply Forall_forall. intros x [->|Hx]%elem_of_insert_desc.
      * unfold not_older. destruct (date_leb_total (tx_date h) (tx_date t));
          congruence.
      * by eapply Forall_forall in Hh.
Qed.

Lemma orderBy_date_desc_sorted l :
  StronglySorted not_older (orderBy_date_desc l).
Proof.
  unfold orderBy_date_desc. induction l as [|h r IH]; cbn [foldr].
  - constructor.
  - by apply insert_desc_sorted.
Qed.

Lemma getUserTransactions_Return env query w rows w' :
  getUserTransactions env query w = (Return (Success rows), w') ->
  w' = w /\
  exists userId user,
    auth_userId env = Some userId /\ userId <> "" /\
    user_findFirst userId (db w) = Some user /\
    rows = transaction_findMany (user_id user) query (db w).
Proof.
  unfold getUserTransactions, getUserTransactions_body. intros Hrun.
  destruct (authenticate_cases env w) as [(userId & Hauth & Hne & Ha)|Ha].
  2:{ erewrite try_catch_Throw in Hrun by apply (bind_Throw _ _ _ _ _ Ha).
      discriminate. }
  destruct (resolve_user_cases userId w) as [(user & Huser & Hr)|[_ Hr]].
  2:{ erewrite try_catch_Throw in Hrun.
      - discriminate.
      - step_Return Ha. apply (bind_Throw _ _ _ _ _ Hr). }
  erewrite try_catch_Return in Hrun.
  2:{ step_Return Ha. step_Return Hr.
      rewrite (bind_Return _ _ _ _ _ (read_Return _ w)). reflexivity. }
  injection Hrun as <- <-. split; [done|].
  exists userId, user. repeat split; try done.
  unfold serializeAmount. etrans; [|apply list_fmap_id].
  apply list_fmap_ext. by intros i [t a] _.
Qed.



(** X18: getUserTransactions returns exactly the stored rows that pass the
    query and belong to the owner it filters by, each with the account its
    accountId names.  The owner is the caller unless the query has a userId
    key of its own, which replaces the caller's. *)
Theorem getUserTransactions_rows env query w rows w' :
  getUserTransactions env query w = (Return (Success rows), w') ->
  w' = w /\
  exists userId user,
    auth_userId env = Some userId /\
    user_findFirst userId (db w) = Some user /\
    forall t a,
      (t, a) ∈ rows <->
      (exists id, transactions (db w) !! id = Some t) /\
      tx_userId t = default (user_id user) (q_userId query) /\
      q_where query t = true /\
      a = accounts (db w) !! tx_accountId t.
Proof.
  intros Hrun.
  apply getUserTransactions_Return in Hrun
    as (-> & userId & user & Hauth & _ & Huser & ->).
  split; [done|]. exists userId, user. split; [done|]. split; [done|].
  intros t a. unfold transaction_findMany. rewrite list_elem_of_fmap.
  split.
  - intros (t' & [= -> ->] & Hin).
    apply elem_of_orderBy_date_desc, list_elem_of_In, filter_In in Hin
      as [Hin Hpass].
    apply list_elem_of_In, list_elem_of_fmap in Hin as ([id t''] & -> & Hin).
    apply elem_of_map_to_list in Hin.
    apply andb_true_iff in Hpass as [Howner Hwhere].
    apply String.eqb_eq in Howner. cbn [snd] in *.
    split; [by exists id|]. done.
  - intros ((id & Hid) & Howner & Hwhere & ->).
    exists t. split; [done|].
    apply elem_of_orderBy_date_desc, list_elem_of_In, filter_In. split.
    + apply list_elem_of_In, list_elem_of_fmap. exists (id, t).
      split; [done|]. by apply elem_of_map_to_list.
    + apply andb_true_iff. split; [by apply String.eqb_eq|done].
Qed.

Lemma getUserTransactions_rows_witness :
  (Sample.rent, Some Sample.checking)
  ∈ transaction_findMany "u-alice" Sample.any_query Sample.database.
Proof.
  destruct (getUserTransactions_rows Sample.env Sample.any_query Sample.world
              (transaction_findMany "u-alice" Sample.any_query Sample.database)
              Sample.world)
    as (_ & userId & user & Hauth & Huser & Hrows); [reflexivity|].
  injection Hauth as <-. injection Huser as <-.
  apply Hrows. split; [by exists "tx-rent"|]. done.
Defined.

(** ** More on the receipt adapter *)

Section ReceiptResults.

Variable generateContent : Receipt.File -> Outcome string.
Variable JSON_parse : string -> option Receipt.JSON.
Variable parseFloat : option Receipt.JSON -> option Z.
Variable new_Date : option Receipt.JSON -> JSDate.t.

Lemma scanReceipt_parsed file w text r :
  generateContent file = Return text ->
  Receipt.parse_receipt JSON_parse parseFloat new_Date (Receipt.cleanText text) w
  = (Return r, w) ->
  Receipt.scanReceipt generateContent JSON_parse parseFloat new_Date file w
  = (Return r, w).
Proof.
  intros Hgen Hparse. unfold Receipt.scanReceipt. rewrite Hgen.
  apply try_catch_Return. rewrite (bind_Return _ _ w text w eq_refl).
  by apply try_catch_Return.
Qed.


(** X20: a response that parses to a JSON value without fields does not
    fail as an invalid format: for a number, a string, a boolean or an array
    scanReceipt succeeds with every field undefined (the amount is
    parseFloat of undefined, the date [new Date] of undefined); only [null]
    fails, with "Failed to process receipt". *)
Theorem scanReceipt_value_without_fields file w text v :
  generateContent file = Return text ->
  JSON_parse (Receipt.cleanText text) = Some v ->
  (forall fields, v <> Receipt.JObject fields) ->
  Receipt.scanReceipt generateContent JSON_parse parseFloat new_Date file w
  = match v with
    | Receipt.JNull => (Throw "Failed to process receipt", w)
    | _ =>
        (Return
           {| Receipt.s_amount := parseFloat None;
              Receipt.s_date := new_Date None;
              Receipt.s_description := None;
              Receipt.s_category := None;
              Receipt.s_merchantName := None |},
         w)
    end.
Proof.
  intros Hgen Hparse Hobj.
  destruct v as [|b|n|s|items|fields]; [|idtac..].
  - unfold Receipt.scanReceipt. rewrite Hgen.
    erewrite try_catch_Throw; [reflexivity|].
    rewrite (bind_Return _ _ w text w eq_refl).
    erewrite try_catch_Throw; [reflexivity|].
    unfold Receipt.parse_receipt. rewrite Hparse. reflexivity.
  - apply (scanReceipt_parsed file w text); [done|].
    unfold Receipt.parse_receipt. rewrite Hparse. reflexivity.
  - apply (scanReceipt_parsed file w text); [done|].
    unfold Receipt.parse_receipt. rewrite Hparse. reflexivity.
  - apply (scanReceipt_parsed file w text); [done|].
    unfold Receipt.parse_receipt. rewrite Hparse. reflexivity.
  - apply (scanReceipt_parsed file w text); [done|].
    unfold Receipt.parse_receipt. rewrite Hparse. reflexivity.
  - by destruct (Hobj fields).
Qed.

End ReceiptResults.


Lemma scanReceipt_value_without_fields_witness :
  Receipt.scanReceipt Sample2.answers_number Sample2.parses_number
    (fun _ => None) (fun _ => None) Sample.receipt_image Sample.world
  = (Return
       {| Receipt.s_amount := None; Receipt.s_date := None;
          Receipt.s_description := None; Receipt.s_category := None;
          Receipt.s_merchantName := None |},
     Sample.world).
Proof.
  apply (scanReceipt_value_without_fields
           Sample2.answers_number Sample2.parses_number
           (fun _ => None) (fun _ => None) Sample.receipt_image Sample.world
           "42" (Receipt.JNumber 42)); [reflexivity|reflexivity|discriminate].
Defined.

(** ** Cleaning the model's text *)

Lemma prefix_cons a p c r :
  String.prefix (String a p) (String c r)
  = if ascii_dec a c then String.prefix p r else false.
Proof. reflexivity. Qed.

Lemma prefix_empty_l s : String.prefix "" s = true.
Proof. by destruct s. Qed.

Lemma fence_length_no_fence s :
  String.prefix "```" s = false -> Receipt.fence_length s = 0%nat.
Proof. unfold Receipt.fence_length. by intros ->. Qed.

Lemma fence_length_fence s :
  String.prefix "```" s = true ->
  exists k, Receipt.fence_length s = S k.
Proof. unfold Receipt.fence_length. intros ->. by eexists. Qed.

Lemma remove_fences_skip s : forall k,
  Receipt.remove_fences k s = Receipt.remove_fences 0 (Receipt.string_drop k s).
Proof.
  induction s as [|c r IH]; intros [|k]; try reflexivity.
  cbn [Receipt.remove_fences Receipt.string_drop]. apply IH.
Qed.

Lemma length_string_drop k : forall s,
  (String.length (Receipt.string_drop k s) <= String.length s)%nat.
Proof.
  induction k as [|k IH]; intros [|c r]; cbn [Receipt.string_drop String.length];
    try lia.
  specialize (IH r). lia.
Qed.

Lemma remove_fences_cons c r :
  Receipt.remove_fences 0 (String c r)
  = match Receipt.fence_length (String c r) with
    | O => String c (Receipt.remove_fences 0 r)
    | S k => Receipt.remove_fences 0 (Receipt.string_drop k r)
    end.
Proof.
  cbn [Receipt.remove_fences].
  destruct (Receipt.fence_length (String c r)); [done|].
  apply remove_fences_skip.
Qed.

(** Where the cleaned text starts with one or two backticks, the text did
    too, unless it started with a fence. *)
Lemma remove_fences_starts_1 r :
  String.prefix "`" (Receipt.remove_fences 0 r) = true ->
  String.prefix "```" r = true \/ String.prefix "`" r = true.
Proof.
  destruct r as [|c r]; [done|]. rewrite remove_fences_cons.
  destruct (String.prefix "```" (String c r)) eqn:Hfence; [by left|].
  rewrite (fence_length_no_fence _ Hfence). rewrite !prefix_cons.
  destruct (ascii_dec "`" c); [|done]. intros _. right. apply prefix_empty_l.
Qed.

Lemma remove_fences_starts_2 r :
  String.prefix "``" (Receipt.remove_fences 0 r) = true ->
  String.prefix "```" r = true \/ String.prefix "``" r = true.
Proof.
  destruct r as [|c r]; [done|]. rewrite remove_fences_cons.
  destruct (String.prefix "```" (String c r)) eqn:Hfence; [by left|].
  rewrite (fence_length_no_fence _ Hfence). rewrite !prefix_cons in *.
  destruct (ascii_dec "`" c) as [<-|]; [|done].
  intros [H3|H1]%remove_fences_starts_1; [|by right].
  destruct r as [|c2 r]; [done|]. rewrite !prefix_cons in *.
  destruct (ascii_dec "`" c2); [|done]. right. apply prefix_empty_l.
Qed.

Lemma no_fence_at_kept_character c r :
  String.prefix "```" (String c r) = false ->
  String.prefix "```" (String c (Receipt.remove_fences 0 r)) = false.
Proof.
  intros Hfence. rewrite prefix_cons in *.
  destruct (ascii_dec "`" c) as [<-|]; [|done].
  destruct (String.prefix "``" (Receipt.remove_fences 0 r)) eqn:H2; [|done].
  apply remove_fences_starts_2 in H2 as [H3|H2]; [|congruence].
  destruct r as [|c2 r]; [done|]. rewrite !prefix_cons in *.
  destruct (ascii_dec "`" c2); [|done].
  destruct r as [|c3 r]; [done|]. rewrite !prefix_cons in *.
  destruct (ascii_dec "`" c3); [|done]. rewrite prefix_empty_l in Hfence.
  done.
Qed.

Lemma remove_fences_no_fence_bounded n : forall text,
  (String.length text <= n)%nat ->
  contains_fence (Receipt.remove_fences 0 text) = false.
Proof.
  induction n as [|n IH]; intros [|c r] Hlen; try reflexivity;
    cbn [String.length] in Hlen; [lia|].
  rewrite remove_fences_cons.
  destruct (String.prefix "```" (String c r)) eqn:Hfence.
  - destruct (fence_length_fence _ Hfence) as [k ->].
    apply IH. pose proof (length_string_drop k r). lia.
  - rewrite (fence_length_no_fence _ Hfence). cbn [contains_fence].
    rewrite (no_fence_at_kept_character c r Hfence). cbn [orb].
    apply IH. lia.
Qed.

(** X21: the replacement of the fence pattern removes every fence marker:
    whatever the text, no three backticks in a row are left, also where
    removing one match brings backticks together. *)
Theorem remove_fences_no_fence text :
  contains_fence (Receipt.remove_fences 0 text) = false.
Proof. by apply (remove_fences_no_fence_bounded (String.length text)). Qed.

Lemma string_app_cons c (a b : string) :
  (String c a ++ b)%string = String c (a ++ b).
Proof. reflexivity. Qed.

Lemma string_app_nil_l (s : string) : ("" ++ s)%string = s.
Proof. reflexivity. Qed.

Lemma string_app_nil_r (s : string) : (s ++ "")%string = s.
Proof.
  induction s as [|c r IH]; [done|]. by rewrite string_app_cons, IH.
Qed.

Lemma string_app_assoc (a b c : string) :
  ((a ++ b) ++ c)%string = (a ++ (b ++ c))%string.
Proof.
  induction a as [|x a IH]; [done|]. by rewrite !string_app_cons, IH.
Qed.

Lemma reverse_acc s : forall acc,
  Receipt.reverse acc s = (Receipt.reverse "" s ++ acc)%string.
Proof.
  induction s as [|c r IH]; intros acc; cbn [Receipt.reverse]; [done|].
  rewrite (IH (String c acc)), (IH (String c "")).
  by rewrite string_app_assoc.
Qed.

Lemma reverse_app (a b : string) :
  Receipt.reverse "" (a ++ b)
  = (Receipt.reverse "" b ++ Receipt.reverse "" a)%string.
Proof.
  induction a as [|c a IH].
  - rewrite string_app_nil_l. cbn [Receipt.reverse].
    by rewrite string_app_nil_r.
  - rewrite string_app_cons. cbn [Receipt.reverse].
    rewrite (reverse_acc (a ++ b)), (reverse_acc a), IH.
    by rewrite string_app_assoc.
Qed.

Lemma reverse_involutive s : Receipt.reverse "" (Receipt.reverse "" s) = s.
Proof.
  induction s as [|c r IH]; cbn [Receipt.reverse]; [done|].
  rewrite (reverse_acc r), reverse_app, IH. reflexivity.
Qed.

Lemma trimStart_no_leading_space s :
  starts_with_space (Receipt.trimStart s) = false.
Proof.
  induction s as [|c r IH]; cbn [Receipt.trimStart]; [done|].
  destruct (Receipt.is_space c) eqn:Hc; [exact IH|]. exact Hc.
Qed.

(** What [trimStart] cuts off in front is white space to the last
    character. *)
Lemma trimStart_split s :
  exists spaces,
    s = (spaces ++ Receipt.trimStart s)%string /\
    forall rest, starts_with_space (Receipt.reverse "" spaces ++ rest)
                 = (if decide (spaces = "") then starts_with_space rest else true).
Proof.
  induction s as [|c r (spaces & Hs & Hlast)]; cbn [Receipt.trimStart].
  - exists "". split; [done|]. intros rest. by rewrite decide_True.
  - destruct (Receipt.is_space c) eqn:Hc.
    + exists (String c spaces). split; [rewrite string_app_cons; by f_equal|].
      intros rest. rewrite decide_False by done.
      cbn [Receipt.reverse]. rewrite reverse_acc, string_app_assoc, Hlast.
      destruct (decide (spaces = "")); [|done].
      rewrite string_app_cons. exact Hc.
    + exists "". split; [done|]. intros rest. by rewrite decide_True.
Qed.


(** ** More on the seeder *)

(** The rounded share of the range that a draw selects. *)
Lemma rounded_share_range m width :
  0 <= m < Seed.two53 -> 0 <= width ->
  0 <= (2 * 100 * m * width + Seed.two53) / (2 * Seed.two53) <= 100 * width.
Proof.
  unfold Seed.two53. intros Hm Hw.
  assert (0 <= m * width <= 9007199254740991 * width) by nia.
  split.
  - apply Z.div_pos; lia.
  - apply Z.lt_succ_r, Z.div_lt_upper_bound; lia.
Qed.



Lemma CATEGORIES_income_expense type :
  type = "INCOME" \/ type = "EXPENSE" ->
  Forall (fun c => (if String.eqb type "INCOME" then 100 else 50)
                   <= Seed.cat_min c
                   /\ Seed.cat_min c <= Seed.cat_max c
                   /\ Seed.cat_max c
                      <= (if String.eqb type "INCOME" then 8000 else 2000))
         (Seed.CATEGORIES type) /\
  (0 < length (Seed.CATEGORIES type))%nat.
Proof.
  intros [-> | ->]; (split; [|cbn; lia]);
    repeat constructor; cbn; lia.
Qed.

Lemma getRandomCategory_spec env type k :
  type = "INCOME" \/ type = "EXPENSE" ->
  fst (Seed.getRandomCategory env type k)
    ∈ (Seed.cat_name <$> Seed.CATEGORIES type) /\
  100 * (if String.eqb type "INCOME" then 100 else 50)
  <= snd (Seed.getRandomCategory env type k)
  <= 100 * (if String.eqb type "INCOME" then 8000 else 2000).
Proof.
  intros Htype.
  destruct (CATEGORIES_income_expense type Htype) as [Hall Hlen].
  unfold Seed.getRandomCategory. cbn [fst snd].
  set (categories := Seed.CATEGORIES type) in *.
  pose proof (floor_times_range (Seed.random env k)
                (Z.of_nat (length categories)) (random_range env k)
                ltac:(lia)) as Hidx.
  set (idx := Seed.floor_times _ _) in *.
  set (category := nth (Z.to_nat idx) categories _).
  assert (Hin : In category categories) by (apply nth_In; lia).
  split.
  - apply list_elem_of_fmap. exists category. split; [done|].
    by apply list_elem_of_In.
  - rewrite Forall_forall in Hall.
    destruct (Hall category) as (Hlo & Hmid & Hhi); [by apply list_elem_of_In|].
    unfold Seed.getRandomAmount.
    pose proof (rounded_share_range (Seed.random env (S k))
                  (Seed.cat_max category - Seed.cat_min category)
                  (random_range env (S k)) ltac:(lia)).
    lia.
Qed.

(** One pass of the inner loop: the pushed row has the seeded shape and the
    running sum grows by its signed amount. *)
Lemma push_transaction_shape env date g :
  exists row,
    Seed.g_transactions (Seed.push_transaction env date g)
    = (Seed.g_transactions g ++ [row])%list /\
    seeded_shape date row /\
    Seed.g_balanceChange (Seed.push_transaction env date g)
    = Seed.g_balanceChange g + signed_amount row.
Proof.
  unfold Seed.push_transaction.
  set (type := if 5 * Seed.random env (Seed.g_draws g) <? 2 * Seed.two53
               then "INCOME" else "EXPENSE").
  assert (Htype : type = "INCOME" \/ type = "EXPENSE").
  { subst type. destruct (_ <? _); [by left|by right]. }
  destruct (getRandomCategory_spec env type (S (Seed.g_draws g)) Htype)
    as [Hcat Hamount].
  destruct (Seed.getRandomCategory env type (S (Seed.g_draws g)))
    as [category amount].
  cbn [fst snd] in Hcat, Hamount.
  eexists. split; [reflexivity|]. split.
  - unfold seeded_shape. cbn [tx_type tx_amount tx_category tx_date tx_status
      tx_userId tx_accountId tx_isRecurring tx_nextRecurringDate].
    split; [|by repeat split].
    destruct Htype as [Ht|Ht]; rewrite Ht in *;
      cbn [String.eqb Ascii.eqb Bool.eqb] in *; [left|right];
      (split; [done|lia]).
  - cbn [Seed.g_balanceChange]. f_equal.
    unfold signed_amount, balanceChange_of. cbn [tx_type tx_amount].
    destruct Htype as [Ht|Ht]; rewrite Ht in *;
      cbn [String.eqb Ascii.eqb Bool.eqb] in *; lia.
Qed.

Lemma day_loop_shape env date n g :
  exists new,
    Seed.g_transactions (Seed.day_loop env date n g)
    = (Seed.g_transactions g ++ new)%list /\
    length new = n /\ Forall (seeded_shape date) new /\
    Seed.g_balanceChange (Seed.day_loop env date n g)
    = Seed.g_balanceChange g + net_delta new.
Proof.
  revert g. induction n as [|n IH]; intros g; cbn [Seed.day_loop].
  - exists []. rewrite app_nil_r. repeat split; [constructor|cbn; lia].
  - destruct (push_transaction_shape env date g) as (row & Ht & Hshape & Hb).
    destruct (IH (Seed.push_transaction env date g))
      as (new & Ht' & Hn & Hall & Hb').
    exists (row :: new). rewrite Ht', Ht, <- app_assoc. split; [done|].
    split; [cbn; lia|]. split; [by constructor|].
    rewrite Hb', Hb. cbn [net_delta foldr]. unfold net_delta. lia.
Qed.

Lemma days_loop_shape env n g :
  exists new,
    Seed.g_transactions (Seed.days_loop env n g)
    = (Seed.g_transactions g ++ new)%list /\
    (n <= length new <= 3 * n)%nat /\
    Forall (fun row => exists i, (i < n)%nat /\
                                 seeded_shape (seed_date env i) row) new /\
    Seed.g_balanceChange (Seed.days_loop env n g)
    = Seed.g_balanceChange g + net_delta new.
Proof.
  revert g. induction n as [|n IH]; intros g; cbn [Seed.days_loop].
  - exists []. rewrite app_nil_r. repeat split; [cbn; lia..|constructor|cbn; lia].
  - fold (seed_date env n).
    set (g1 := {| Seed.g_transactions := Seed.g_transactions g;
                  Seed.g_balanceChange := Seed.g_balanceChange g;
                  Seed.g_draws := S (Seed.g_draws g) |}).
    set (tpd := Z.to_nat _).
    assert (Htpd : (1 <= tpd <= 3)%nat) by apply transactionsPerDay_range.
    destruct (day_loop_shape env (seed_date env n) tpd g1)
      as (chunk & Ht & Hlen & Hchunk & Hb).
    destruct (IH (Seed.day_loop env (seed_date env n) tpd g1))
      as (rest & Ht' & Hcount & Hrest & Hb').
    exists (chunk ++ rest)%list.
    rewrite Ht', Ht, <- app_assoc. split; [done|]. split; [|split].
    + rewrite length_app. lia.
    + apply Forall_app. split.
      * eapply Forall_impl; [exact Hchunk|]. intros row Hrow.
        exists n. split; [lia|done].
      * eapply Forall_impl; [exact Hrest|]. intros row (i & Hi & Hrow).
        exists i. split; [lia|done].
    + rewrite Hb', Hb, net_delta_app. cbn [g1 Seed.g_balanceChange]. lia.
Qed.


(** X25: when the demo account is missing, or is not the demo user's, the
    seeder stops before it generates or writes anything and reports the
    account and the user by their ids. *)
Theorem seedTransactions_account_missing env w :
  account_findFirst Seed.ACCOUNT_ID Seed.USER_ID (db w) = None ->
  Seed.seedTransactions env w
  = (Return
       (Failure
          "Account 8e9de477-116a-4394-9d9f-c295813af632 not found for user 2817d31d-5dfc-4059-9c71-5c4becacb5c4"),
     w).
Proof.
  intros Hacc. unfold Seed.seedTransactions, Seed.seedTransactions_body.
  erewrite try_catch_Throw; [reflexivity|].
  rewrite (bind_Return _ _ _ _ _ (read_Return _ w)). rewrite Hacc.
  reflexivity.
Qed.

Lemma seedTransactions_account_missing_witness :
  Seed.seedTransactions Sample.seed_env Sample2.no_demo_account
  = (Return
       (Failure
          "Account 8e9de477-116a-4394-9d9f-c295813af632 not found for user 2817d31d-5dfc-4059-9c71-5c4becacb5c4"),
     Sample2.no_demo_account).
Proof.
  apply (seedTransactions_account_missing Sample.seed_env
           Sample2.no_demo_account).
  vm_compute. reflexivity.
Defined.

Lemma contribution_with_id accountId id row :
  contribution accountId (Seed.with_id id row) = contribution accountId row.
Proof. reflexivity. Qed.

Lemma insert_rows_ledger_sum gen accountId rows : forall k m m',
  Seed.insert_rows gen k rows m = Return m' ->
  Forall (fun row => tx_accountId row = accountId) rows ->
  ledger_sum accountId m' = net_delta rows + ledger_sum accountId m.
Proof.
  induction rows as [|row rows IH]; intros k m m'; cbn [Seed.insert_rows].
  - intros [= <-] _. cbn. lia.
  - destruct (m !! gen k) eqn:Hfree; [done|]. intros Hrun Hall.
    apply Forall_cons in Hall as [Hrow Hall].
    rewrite (IH _ _ _ Hrun Hall).
    rewrite ledger_sum_insert_fresh by done.
    rewrite contribution_with_id. unfold contribution.
    rewrite Hrow, String.eqb_refl. cbn [net_delta foldr]. unfold net_delta. lia.
Qed.

Lemma ledger_sum_other_accounts accountId (m : gmap string Transaction) :
  ledger_sum accountId
    (filter (fun kv : string * Transaction => tx_accountId (snd kv) <> accountId)
            m) = 0.
Proof.
  apply ledger_sum_none. intros k t [_ Hne]%map_lookup_filter_Some.
  cbn [snd] in Hne. unfold contribution.
  by destruct (String.eqb_spec (tx_accountId t) accountId).
Qed.

Lemma generate_accounts_and_sum env :
  Forall (fun row => tx_accountId row = Seed.ACCOUNT_ID)
         (Seed.g_transactions (Seed.generate env)) /\
  Seed.g_balanceChange (Seed.generate env)
  = net_delta (Seed.g_transactions (Seed.generate env)).
Proof.
  unfold Seed.generate.
  destruct (days_loop_shape env 91
              {| Seed.g_transactions := []; Seed.g_balanceChange := 0;
                 Seed.g_draws := 0 |})
    as (new & Hnew & _ & Hrows & Hsum).
  revert Hnew Hsum.
  generalize (Seed.days_loop env 91
                {| Seed.g_transactions := []; Seed.g_balanceChange := 0;
                   Seed.g_draws := 0 |}).
  intros g Hnew Hsum. cbn [Seed.g_transactions Seed.g_balanceChange] in Hnew, Hsum.
  rewrite app_nil_l in Hnew. subst new. split; [|lia].
  eapply Forall_impl; [exact Hrows|]. intros row (i & _ & Hshape).
  apply Hshape.
Qed.



(** ** The persistence client singleton *)

Lemma load_outside_production NODE_ENV g :
  NODE_ENV <> Some "production" ->
  Prisma.load NODE_ENV g
  = match Prisma.prisma g with
    | Some client =>
        (client, {| Prisma.prisma := Some client;
                    Prisma.constructed := Prisma.constructed g |})
    | None =>
        (Prisma.constructed g,
         {| Prisma.prisma := Some (Prisma.constructed g);
            Prisma.constructed := S (Prisma.constructed g) |})
    end.
Proof.
  intros Hdev. unfold Prisma.load, Prisma.prismaClientSingleton.
  rewrite bool_decide_eq_false_2 by done.
  by destruct (Prisma.prisma g).
Qed.

(** X27: outside production the module keeps one client: once it has been
    evaluated, every further evaluation (a hot reload) returns the client of
    the first one and builds no new client, however often it happens. *)
Theorem prisma_client_is_reused NODE_ENV g n :
  NODE_ENV <> Some "production" ->
  let first := Prisma.load NODE_ENV g in
  Prisma.load NODE_ENV
    (repeat_apply n (fun g' => snd (Prisma.load NODE_ENV g')) (snd first))
  = first.
Proof.
  intros Hdev first.
  assert (Hfix : Prisma.load NODE_ENV (snd first) = first).
  { subst first. rewrite !load_outside_production by done.
    destruct (Prisma.prisma g); reflexivity. }
  induction n as [|n IH]; cbn [repeat_apply]; [exact Hfix|].
  by rewrite Hfix.
Qed.

Lemma prisma_client_is_reused_witness :
  Prisma.load (Some "development")
    (repeat_apply 3 (fun g' => snd (Prisma.load (Some "development") g'))
       (snd (Prisma.load (Some "development")
               {| Prisma.prisma := None; Prisma.constructed := 0 |})))
  = Prisma.load (Some "development")
      {| Prisma.prisma := None; Prisma.constructed := 0 |}.
Proof.
  apply (prisma_client_is_reused (Some "development")
           {| Prisma.prisma := None; Prisma.constructed := 0 |} 3).
  discriminate.
Defined.

(** X28: in production nothing is stored on the global object: with no
    client there, every evaluation of the module builds a client of its own
    and leaves the global without one, so two evaluations never share a
    client. *)
Theorem prisma_client_not_cached_in_production g :
  Prisma.prisma g = None ->
  let first := Prisma.load (Some "production") g in
  let second := Prisma.load (Some "production") (snd first) in
  Prisma.prisma (snd first) = None /\
  Prisma.constructed (snd second) = S (S (Prisma.constructed g)) /\
  fst second <> fst first.
Proof.
  intros Hnone. unfold Prisma.load, Prisma.prismaClientSingleton.
  rewrite bool_decide_eq_true_2 by done. rewrite Hnone. cbn.
  rewrite ?Hnone. cbn. repeat split; lia.
Qed.

Lemma prisma_client_not_cached_in_production_witness :
  Prisma.constructed
    (snd (Prisma.load (Some "production")
            (snd (Prisma.load (Some "production")
                    {| Prisma.prisma := None; Prisma.constructed := 0 |}))))
  = 2%nat.
Proof.
  apply (prisma_client_not_cached_in_production
           {| Prisma.prisma := None; Prisma.constructed := 0 |}).
  reflexivity.
Defined.

(** ** The transaction table *)

(** X29: a click on a column title makes that column the sort field and
    flips the direction by the current direction alone, whichever column was
    sorted before: from ascending it gives descending also on another
    column.  Two clicks, on any two columns, restore the direction; and the
    chevron stands at the clicked column only. *)
Theorem handleSort_toggles field1 field2 current :
  TransactionTable.field current <> "" -> field1 <> "" ->
  TransactionTable.direction current = "asc"
  \/ TransactionTable.direction current = "desc" ->
  TransactionTable.direction (TransactionTable.handleSort field1 current)
  = (if String.eqb (TransactionTable.direction current) "asc"
     then "desc" else "asc") /\
  TransactionTable.handleSort field2
    (TransactionTable.handleSort field1 current)
  = {| TransactionTable.field := field2;
       TransactionTable.direction := TransactionTable.direction current |} /\
  (forall column,
      TransactionTable.chevron (TransactionTable.handleSort field1 current)
                               column
      = TransactionTable.NoChevron <-> column <> field1).
Proof.
  intros Hfield Hf1 Hdir.
  assert (Ht : forall s, s <> "" -> truthy (Some s) = true).
  { intros s Hs. unfold truthy. by destruct (String.eqb_spec s ""). }
  unfold TransactionTable.handleSort.
  cbn [TransactionTable.field TransactionTable.direction].
  rewrite !Ht by done. cbn [andb].
  split; [done|]. split.
  - f_equal. destruct Hdir as [-> | ->]; reflexivity.
  - intros column. unfold TransactionTable.chevron.
    cbn [TransactionTable.field TransactionTable.direction].
    destruct (String.eqb_spec field1 column) as [->|Hne].
    + destruct (String.eqb _ "asc"); split; (done || congruence).
    + split; [congruence|done].
Qed.

Lemma handleSort_toggles_witness :
  TransactionTable.handleSort "amount"
    (TransactionTable.handleSort "category" TransactionTable.initialSortConfig)
  = {| TransactionTable.field := "amount";
       TransactionTable.direction := "desc" |}.
Proof.
  apply (handleSort_toggles "category" "amount"
           TransactionTable.initialSortConfig);
    [discriminate|discriminate|by right].
Defined.

Section TableOfStoredRows.

Variable format : JSDate.t -> string.
Variable categoryColors : string -> option string.
Variable toFixed2 : Z -> string.

(** X30: createTransaction accepts a transaction marked recurring without
    an interval and stores it with a null next date; the table then shows it
    as recurring, with no interval label and with the epoch (the Date of
    [null]) as its next date. *)
Theorem recurring_without_interval_shows_epoch env data w r w' :
  createTransaction env data w = (Return (Success r), w') ->
  d_isRecurring data = true ->
  truthy (d_recurringInterval data) = false ->
  tx_nextRecurringDate r = None /\
  TransactionTable.badge_of
    (TransactionTable.row format categoryColors toFixed2 r)
  = Some (TransactionTable.Recurring None (format (Some 0))).
Proof.
  intros Hrun Hrec Hunset.
  destruct (createTransaction_cases env data w)
    as [(user & account & Hok & Hc)|(msg & Hc)];
    rewrite Hc in Hrun; [|discriminate].
  injection Hrun as <- <-.
  assert (Hnext : nextRecurringDate_of data = None).
  { unfold nextRecurringDate_of.
    destruct (d_recurringInterval data) as [interval|]; [|done].
    by rewrite Hunset, andb_false_r. }
  split; [exact Hnext|].
  unfold TransactionTable.row. cbn [TransactionTable.badge_of created_row
    tx_isRecurring tx_recurringInterval tx_nextRecurringDate].
  rewrite Hrec, Hnext. cbn [TransactionTable.new_Date]. do 2 f_equal.
  destruct (d_recurringInterval data) as [interval|]; [|done].
  unfold truthy in Hunset. destruct (String.eqb_spec interval ""); [|done].
  by subst interval.
Qed.

End TableOfStoredRows.

Lemma recurring_without_interval_shows_epoch_witness :
  TransactionTable.badge_of
    (TransactionTable.row (fun _ => "Jan 1, 1970") (fun _ => None) (fun _ => "")
       (created_row (uuid Sample.env 0) Sample2.recurring_without_interval
                    Sample.alice))
  = Some (TransactionTable.Recurring None "Jan 1, 1970").
Proof.
  apply (recurring_without_interval_shows_epoch
           (fun _ => "Jan 1, 1970") (fun _ => None) (fun _ => "")
           Sample.env Sample2.recurring_without_interval Sample.world
           (created_row (uuid Sample.env 0) Sample2.recurring_without_interval
                        Sample.alice)
           (created_world Sample.env Sample2.recurring_without_interval
                          Sample.alice Sample.checking Sample.world)).
  - vm_compute. reflexivity.
  - reflexivity.
  - reflexivity.
Defined.
